(** * DeepSolv backend: a shallow embedding of [main.py]

    The request handlers of the Flask application are embedded as functions
    in a small monad that threads the document store, records every access
    to a collection, and propagates Python exceptions.  Each definition
    carries the line numbers of the source text it embeds. *)

From Stdlib Require Import String Ascii List ZArith Bool Lia.
From Stdlib Require Import Permutation Sorted.
Import ListNotations.
Open Scope string_scope.
Open Scope Z_scope.
Set Warnings "-register-all".

(** ** Python values *)

(** The values that travel through the handlers: what [request.json] can
    yield, what the store keeps in a field, what [jsonify] is given.  A
    float is kept as its binary64 bit pattern and a datetime as a number
    of milliseconds: the program performs no arithmetic on either. *)
Inductive pyval : Type :=
| PNone
| PBool (b : bool)
| PInt (z : Z)
| PFloat (bits : Z)
| PStr (s : string)
| PDatetime (t : Z)
| PList (items : list pyval)
| PDict (entries : list (string * pyval)).

(** The exceptions the handlers can raise. *)
Inductive exn : Type :=
| TypeError
| KeyError
| AttributeError.

Inductive outcome (A : Type) : Type :=
| Ok (a : A)
| Raise (e : exn).
Arguments Ok {A} a.
Arguments Raise {A} e.

(** Equality of two values of the same shape. *)
Fixpoint pyval_eqb (a b : pyval) {struct a} : bool :=
  match a, b with
  | PNone, PNone => true
  | PBool x, PBool y => Bool.eqb x y
  | PInt x, PInt y => Z.eqb x y
  | PFloat x, PFloat y => Z.eqb x y
  | PStr x, PStr y => String.eqb x y
  | PDatetime x, PDatetime y => Z.eqb x y
  | PList xs, PList ys =>
      (fix items (xs ys : list pyval) {struct xs} : bool :=
         match xs, ys with
         | [], [] => true
         | x :: xs', y :: ys' => pyval_eqb x y && items xs' ys'
         | _, _ => false
         end) xs ys
  | PDict xs, PDict ys =>
      (fix entries (xs ys : list (string * pyval)) {struct xs} : bool :=
         match xs, ys with
         | [], [] => true
         | (k, x) :: xs', (k', y) :: ys' =>
             String.eqb k k' && pyval_eqb x y && entries xs' ys'
         | _, _ => false
         end) xs ys
  | _, _ => false
  end.

(** Lookup of a key in a dict, the first binding of the key. *)
Fixpoint dict_lookup (k : string) (d : list (string * pyval)) : option pyval :=
  match d with
  | [] => None
  | (k', v) :: d' => if String.eqb k k' then Some v else dict_lookup k d'
  end.

(** [sub in s] for two strings. *)
Fixpoint str_contains (sub s : string) : bool :=
  String.prefix sub s ||
  match s with
  | EmptyString => false
  | String _ s' => str_contains sub s'
  end.

(** [field in data] (line 46): key membership for a dict, element
    membership for a list, substring test for a string; the other values
    are not iterable. *)
Definition py_contains (field : string) (data : pyval) : outcome bool :=
  match data with
  | PDict d => Ok (match dict_lookup field d with Some _ => true | None => false end)
  | PList vs => Ok (existsb (fun v => pyval_eqb v (PStr field)) vs)
  | PStr s => Ok (str_contains field s)
  | _ => Raise TypeError
  end.

(** [data[key]] with a string key (lines 138, 139, 273). *)
Definition py_getitem (data : pyval) (key : string) : outcome pyval :=
  match data with
  | PDict d => match dict_lookup key d with Some v => Ok v | None => Raise KeyError end
  | _ => Raise TypeError
  end.

(** [data.get(key)] (lines 140, 141, 186): only a dict has the method. *)
Definition py_get (data : pyval) (key : string) : outcome pyval :=
  match data with
  | PDict d => Ok (match dict_lookup key d with Some v => v | None => PNone end)
  | _ => Raise AttributeError
  end.

(** [', '.join(fields)] (line 48). *)
Fixpoint join_comma (fields : list string) : string :=
  match fields with
  | [] => ""
  | [f] => f
  | f :: fs => f ++ ", " ++ join_comma fs
  end.

(** ** The document store *)

(** One record per collection, with the fields the program writes
    (lines 89-95, 136-144, 194-198, 230-234, 269-275).  Identifiers made by
    [generate_uuid], taken from the token or from the URL are strings; a
    field copied from a request body or from the identity provider holds
    whatever value was supplied.  A post also carries the [_id] the driver
    gave it, which lines 114, 156 and 213 read. *)
Record user := mk_user {
  user_id : string;
  username : pyval;
  github_id : pyval;
  profile_picture : pyval;
  created_at : Z
}.

Record post := mk_post {
  post_oid : string;
  post_id : string;
  caption : pyval;
  image_url : pyval;
  music_url : pyval;
  category : pyval;
  datetime_posted : Z;
  publisher_id : string
}.

Record follow := mk_follow {
  follower_id : string;
  following_id : pyval;
  followed_at : Z
}.

Record like := mk_like {
  like_post_id : string;
  like_user_id : string;
  liked_at : Z
}.

Record comment := mk_comment {
  comment_id : string;
  comment_post_id : string;
  comment_user_id : string;
  comment_text : pyval;
  commented_at : Z
}.

(** Lines 33-37. *)
Record store := mk_store {
  users : list user;
  posts : list post;
  follows : list follow;
  likes : list like;
  comments : list comment
}.

Inductive collection := Users | Posts | Follows | Likes | Comments.
Inductive operation := FindOne | Find | CountDocuments | InsertOne | DeleteOne.

(** The state a handler runs in: the store and the accesses made to it so
    far, most recent first. *)
Record world := mk_world {
  db : store;
  trace : list (collection * operation)
}.

(** ** The handler monad *)

Definition M (A : Type) : Type := world -> outcome A * world.

Definition ret {A} (a : A) : M A := fun w => (Ok a, w).

Definition raise {A} (e : exn) : M A := fun w => (Raise e, w).

Definition bind {A B} (m : M A) (k : A -> M B) : M B :=
  fun w =>
    match m w with
    | (Ok a, w') => k a w'
    | (Raise e, w') => (Raise e, w')
    end.

Definition lift {A} (o : outcome A) : M A := fun w => (o, w).

Notation "x <- m ;; k" := (bind m (fun x => k))
  (at level 61, m at next level, right associativity).
Notation "' p <- m ;; k" := (bind m (fun x => let p := x in k))
  (at level 61, p pattern, m at next level, right associativity).

(** A collection operation: it is recorded, reads the store and may
    replace it. *)
Definition access {A} (c : collection) (o : operation)
    (f : store -> A * store) : M A :=
  fun w =>
    let (a, s) := f (db w) in
    (Ok a, mk_world s ((c, o) :: trace w)).

Definition query {A} (c : collection) (o : operation) (f : store -> A) : M A :=
  access c o (fun s => (f s, s)).

(** ** Names bound at module level *)

(** Line 6, [from datetime import datetime], binds the name [datetime] to
    the class [datetime.datetime], not to the module.  These are the public
    attributes of that class; [timezone] is a member of the module only,
    and the program imports the module under no name. *)
Definition datetime_class_attributes : list string :=
  [ "min"; "max"; "resolution";
    "today"; "now"; "utcnow"; "fromtimestamp"; "utcfromtimestamp";
    "fromordinal"; "combine"; "fromisoformat"; "fromisocalendar"; "strptime";
    "year"; "month"; "day"; "hour"; "minute"; "second"; "microsecond";
    "tzinfo"; "fold";
    "date"; "time"; "timetz"; "replace"; "astimezone"; "utcoffset"; "dst";
    "tzname"; "timetuple"; "utctimetuple"; "toordinal"; "timestamp";
    "weekday"; "isoweekday"; "isocalendar"; "isoformat"; "ctime"; "strftime" ].

(** [datetime.<name>]: attribute lookup on the class. *)
Definition datetime_getattr (name : string) : outcome string :=
  if existsb (String.eqb name) datetime_class_attributes
  then Ok name
  else Raise AttributeError.

(** What a request draws from outside the store: the identifier
    [uuid.uuid4] produces, the [_id] the driver gives an inserted document,
    and the reading of the clock. *)
Record env := mk_env {
  fresh_uuid : string;
  fresh_oid : string;
  clock : Z
}.

(** [datetime.now(datetime.timezone.utc)] (lines 142, 197, 233, 274): the
    callee [datetime.now] is evaluated, then its argument, whose first step
    is the attribute [timezone] of the name [datetime]. *)
Definition datetime_now_utc (e : env) : M Z :=
  _ <- lift (datetime_getattr "now") ;;
  _ <- lift (datetime_getattr "timezone") ;;
  ret (clock e).

(** Lines 41-42. *)
Definition generate_uuid (e : env) : M string := ret (fresh_uuid e).

(** Lines 45-49.  The comprehension tests the fields in order and stops at
    the first test that raises. *)
Fixpoint missing_fields (required_fields : list string) (data : pyval)
    : outcome (list string) :=
  match required_fields with
  | [] => Ok []
  | field :: rest =>
      match py_contains field data with
      | Raise e => Raise e
      | Ok present =>
          match missing_fields rest data with
          | Raise e => Raise e
          | Ok missing => Ok (if present then missing else field :: missing)
          end
      end
  end.

Definition validate_request (required_fields : list string) (data : pyval)
    : outcome (bool * pyval) :=
  match missing_fields required_fields data with
  | Raise e => Raise e
  | Ok [] => Ok (true, PDict [])
  | Ok missing =>
      Ok (false, PDict [("error", PStr ("Missing fields: " ++ join_comma missing))])
  end.

(** ** Collection operations *)

(** A filter [{"field": value}] is an equality test.  A value that is
    itself a document of query operators is not interpreted: the only
    operator the program writes is [$in] at line 209. *)

Definition users_find_one (uid : pyval) : M (option user) :=
  query Users FindOne
    (fun s => find (fun u => pyval_eqb (PStr (user_id u)) uid) (users s)).

Definition posts_find_one (pid : string) : M (option post) :=
  query Posts FindOne
    (fun s => find (fun p => String.eqb (post_id p) pid) (posts s)).

Definition posts_find_by_publisher (uid : string) : M (list post) :=
  query Posts Find
    (fun s => filter (fun p => String.eqb (publisher_id p) uid) (posts s)).

Definition posts_insert_one (p : post) : M unit :=
  access Posts InsertOne
    (fun s => (tt, mk_store (users s) (posts s ++ [p]) (follows s) (likes s) (comments s))).

(** Descending order on [datetime_posted]: a post goes in front of the
    first one that is not newer than it. *)
Fixpoint insert_desc (p : post) (sorted : list post) : list post :=
  match sorted with
  | [] => [p]
  | q :: rest =>
      if datetime_posted q <=? datetime_posted p
      then p :: q :: rest
      else q :: insert_desc p rest
  end.

Definition sort_desc (ps : list post) : list post :=
  fold_right insert_desc [] ps.

(** [{"publisher_id": {"$in": ids}}]. *)
Definition publisher_in (ids : list pyval) (p : post) : bool :=
  existsb (pyval_eqb (PStr (publisher_id p))) ids.

(** Line 209: [find] with [$in], then [sort("datetime_posted", -1)]. *)
Definition posts_find_in_sorted (ids : list pyval) : M (list post) :=
  query Posts Find
    (fun s => sort_desc (filter (publisher_in ids) (posts s))).

Definition follows_find (uid : string) : M (list follow) :=
  query Follows Find
    (fun s => filter (fun f => String.eqb (follower_id f) uid) (follows s)).

Definition is_edge (uid : string) (target : pyval) (f : follow) : bool :=
  String.eqb (follower_id f) uid && pyval_eqb (following_id f) target.

Definition follows_find_one (uid : string) (target : pyval) : M (option follow) :=
  query Follows FindOne (fun s => find (is_edge uid target) (follows s)).

Definition follows_insert_one (f : follow) : M unit :=
  access Follows InsertOne
    (fun s => (tt, mk_store (users s) (posts s) (follows s ++ [f]) (likes s) (comments s))).

Definition is_like (pid uid : string) (l : like) : bool :=
  String.eqb (like_post_id l) pid && String.eqb (like_user_id l) uid.

Definition likes_find_one (pid uid : string) : M (option like) :=
  query Likes FindOne (fun s => find (is_like pid uid) (likes s)).

Definition likes_insert_one (l : like) : M unit :=
  access Likes InsertOne
    (fun s => (tt, mk_store (users s) (posts s) (follows s) (likes s ++ [l]) (comments s))).

(** [delete_one]: the first document the filter matches goes. *)
Fixpoint remove_first {A} (f : A -> bool) (l : list A) : list A :=
  match l with
  | [] => []
  | x :: l' => if f x then l' else x :: remove_first f l'
  end.

Definition likes_delete_one (pid uid : string) : M unit :=
  access Likes DeleteOne
    (fun s => (tt, mk_store (users s) (posts s) (follows s)
                     (remove_first (is_like pid uid) (likes s)) (comments s))).

Definition count_likes (pid : string) (s : store) : Z :=
  Z.of_nat (length (filter (fun l => String.eqb (like_post_id l) pid) (likes s))).

Definition likes_count_documents (pid : string) : M Z :=
  query Likes CountDocuments (count_likes pid).

Definition count_comments (pid : string) (s : store) : Z :=
  Z.of_nat (length (filter (fun c => String.eqb (comment_post_id c) pid) (comments s))).

Definition comments_count_documents (pid : string) : M Z :=
  query Comments CountDocuments (count_comments pid).

Definition comments_insert_one (c : comment) : M unit :=
  access Comments InsertOne
    (fun s => (tt, mk_store (users s) (posts s) (follows s) (likes s) (comments s ++ [c]))).

(** ** Responses *)

(** What a view returns: [jsonify(value)] alone answers with status 200,
    [jsonify(value), code] with the given code. *)
Record response := mk_response {
  body : pyval;
  status : Z
}.

Definition message (text : string) : pyval := PDict [("message", PStr text)].
Definition error (text : string) : pyval := PDict [("error", PStr text)].

(** A stored post as the views return it, after [post["_id"] = str(post["_id"])]
    (lines 114, 213). *)
Definition post_document (p : post) : pyval :=
  PDict [ ("_id", PStr (post_oid p));
          ("post_id", PStr (post_id p));
          ("caption", caption p);
          ("image_url", image_url p);
          ("music_url", music_url p);
          ("category", category p);
          ("datetime_posted", PDatetime (datetime_posted p));
          ("publisher_id", PStr (publisher_id p)) ].

(** ** The views *)

(** Lines 105-121. *)
Definition get_profile (user_id : string) : M response :=
  user <- users_find_one (PStr user_id) ;;
  match user with
  | None => ret (mk_response (error "User not found") 404)
  | Some user =>
      user_posts <- posts_find_by_publisher user_id ;;
      ret (mk_response
             (PDict [ ("username", username user);
                      ("profile_picture", profile_picture user);
                      ("posts", PList (map post_document user_posts)) ])
             200)
  end.

(** Lines 126-147. *)
Definition create_post (e : env) (user_id : string) (data : pyval) : M response :=
  '(is_valid, error_response) <- lift (validate_request ["caption"; "image_url"] data) ;;
  if negb is_valid then ret (mk_response error_response 400)
  else
    post_id <- generate_uuid e ;;
    caption <- lift (py_getitem data "caption") ;;
    image_url <- lift (py_getitem data "image_url") ;;
    music_url <- lift (py_get data "music_url") ;;
    category <- lift (py_get data "category") ;;
    posted <- datetime_now_utc e ;;
    _ <- posts_insert_one
           (mk_post (fresh_oid e) post_id caption image_url music_url category
                    posted user_id) ;;
    ret (mk_response
           (PDict [ ("message", PStr "Post created successfully");
                    ("post_id", PStr post_id) ])
           201).

(** [publisher["username"]] and [publisher.get("profile_picture")] (lines
    166, 167) on what [find_one] returned: a document or [None]. *)
Definition document_getitem {D} (doc : option D) (field : D -> pyval) : outcome pyval :=
  match doc with
  | Some d => Ok (field d)
  | None => Raise TypeError
  end.

Definition document_get {D} (doc : option D) (field : D -> pyval) : outcome pyval :=
  match doc with
  | Some d => Ok (field d)
  | None => Raise AttributeError
  end.

(** Lines 151-172. *)
Definition get_post_details (pid : string) : M response :=
  post <- posts_find_one pid ;;
  match post with
  | None => ret (mk_response (error "Post not found") 404)
  | Some post =>
      publisher <- users_find_one (PStr (publisher_id post)) ;;
      publisher_username <- lift (document_getitem publisher username) ;;
      publisher_picture <- lift (document_get publisher profile_picture) ;;
      likes_count <- likes_count_documents pid ;;
      comments_count <- comments_count_documents pid ;;
      ret (mk_response
             (PDict [ ("caption", caption post);
                      ("image_url", image_url post);
                      ("music_url", music_url post);
                      ("category", category post);
                      ("datetime_posted", PDatetime (datetime_posted post));
                      ("publisher",
                        PDict [ ("username", publisher_username);
                                ("profile_picture", publisher_picture) ]);
                      ("likes_count", PInt likes_count);
                      ("comments_count", PInt comments_count) ])
             200)
  end.

(** Lines 177-199. *)
Definition follow_user (e : env) (user_id : string) (data : pyval) : M response :=
  '(is_valid, error_response) <- lift (validate_request ["follow_user_id"] data) ;;
  if negb is_valid then ret (mk_response error_response 400)
  else
    follow_user_id <- lift (py_get data "follow_user_id") ;;
    target <- users_find_one follow_user_id ;;
    match target with
    | None => ret (mk_response (error "User to follow does not exist") 404)
    | Some _ =>
        edge <- follows_find_one user_id follow_user_id ;;
        match edge with
        | Some _ => ret (mk_response (message "Already following") 200)
        | None =>
            now <- datetime_now_utc e ;;
            _ <- follows_insert_one (mk_follow user_id follow_user_id now) ;;
            ret (mk_response (message "Successfully followed") 200)
        end
    end.

(** Lines 204-216. *)
Definition get_feed (user_id : string) : M response :=
  following <- follows_find user_id ;;
  let following_ids := map following_id following in
  feed_posts <- posts_find_in_sorted following_ids ;;
  let paginated_posts := map post_document feed_posts in
  ret (mk_response (PList paginated_posts) 200).

(** Lines 221-235. *)
Definition like_post (e : env) (user_id : string) (pid : string) : M response :=
  post <- posts_find_one pid ;;
  match post with
  | None => ret (mk_response (error "Post not found") 404)
  | Some _ =>
      existing <- likes_find_one pid user_id ;;
      match existing with
      | Some _ => ret (mk_response (message "Post already liked") 200)
      | None =>
          now <- datetime_now_utc e ;;
          _ <- likes_insert_one (mk_like pid user_id now) ;;
          ret (mk_response (message "Post liked successfully") 200)
      end
  end.

(** Lines 240-251. *)
Definition unlike_post (user_id : string) (pid : string) : M response :=
  post <- posts_find_one pid ;;
  match post with
  | None => ret (mk_response (error "Post not found") 404)
  | Some _ =>
      existing <- likes_find_one pid user_id ;;
      match existing with
      | None => ret (mk_response (message "Post not liked yet") 200)
      | Some _ =>
          _ <- likes_delete_one pid user_id ;;
          ret (mk_response (message "Post unliked successfully") 200)
      end
  end.

(** Lines 256-277. *)
Definition add_comment (e : env) (user_id : string) (pid : string) (data : pyval)
    : M response :=
  '(is_valid, error_response) <- lift (validate_request ["comment"] data) ;;
  if negb is_valid then ret (mk_response error_response 400)
  else
    post <- posts_find_one pid ;;
    match post with
    | None => ret (mk_response (error "Post not found") 404)
    | Some _ =>
        comment_id <- generate_uuid e ;;
        text <- lift (py_getitem data "comment") ;;
        now <- datetime_now_utc e ;;
        _ <- comments_insert_one (mk_comment comment_id pid user_id text now) ;;
        ret (mk_response
               (PDict [ ("message", PStr "Comment added successfully");
                        ("comment_id", PStr comment_id) ])
               200)
    end.

(** ** Routing *)

(** A request as a view sees it: the identity its bearer token resolves to,
    if it carries a token that resolves, and its parsed JSON body. *)
Record request := mk_request {
  identity : option string;
  json : pyval
}.

(** Modelled from the spec: the decorator [jwt_required] of lines 104, 125,
    176, 203, 220, 239 and 255 belongs to a library that is not part of the
    source.  Sections 4.3 and 7 of the specification: the token is resolved
    before the view runs, and a token that is missing, malformed, expired or
    wrongly signed is answered with status 401.  [get_jwt_identity()] in the
    view is the identity resolved here. *)
Definition jwt_required (view : string -> M response) (r : request) : M response :=
  match identity r with
  | Some user_id => view user_id
  | None => ret (mk_response (error "Unauthenticated") 401)
  end.

(** Lines 58-60: an exception that leaves a view is answered by the handler
    registered for 500. *)
Definition internal_error : response :=
  mk_response (error "Internal server error") 500.

Definition serve (view : M response) (w : world) : response * world :=
  match view w with
  | (Ok r, w') => (r, w')
  | (Raise _, w') => (internal_error, w')
  end.

(** The routes (lines 103, 124, 150, 175, 202, 219, 238, 254). *)
Inductive route :=
| GET_user_profile
| POST_post
| GET_post (post_id : string)
| POST_follow
| GET_feed
| POST_post_like (post_id : string)
| DELETE_post_like (post_id : string)
| POST_post_comment (post_id : string).

Definition view_of (e : env) (rt : route) (r : request) : M response :=
  match rt with
  | GET_user_profile => jwt_required get_profile r
  | POST_post => jwt_required (fun user_id => create_post e user_id (json r)) r
  | GET_post pid => get_post_details pid
  | POST_follow => jwt_required (fun user_id => follow_user e user_id (json r)) r
  | GET_feed => jwt_required get_feed r
  | POST_post_like pid => jwt_required (fun user_id => like_post e user_id pid) r
  | DELETE_post_like pid => jwt_required (fun user_id => unlike_post user_id pid) r
  | POST_post_comment pid =>
      jwt_required (fun user_id => add_comment e user_id pid (json r)) r
  end.

Definition handle (e : env) (rt : route) (r : request) (w : world) : response * world :=
  serve (view_of e rt r) w.

(** ** Vocabulary of the statements *)

(** [a] may stand before [b] in a sequence that is newest first. *)
Definition newest_first (a b : post) : Prop :=
  datetime_posted b <= datetime_posted a.

(** [uid] follows [target]: the store holds an edge from one to the other. *)
Definition follows_user (s : store) (uid target : string) : Prop :=
  exists f, In f (follows s) /\ follower_id f = uid /\ following_id f = PStr target.

(** The text [msg] contains the name [field]. *)
Definition names_field (field msg : string) : Prop :=
  exists before after, msg = before ++ field ++ after.

(** ** Example states *)

Definition example_env : env := mk_env "uuid-1" "oid-1" 1000.
Definition later_env : env := mk_env "uuid-2" "oid-2" 2000.

Definition alice : user := mk_user "alice" (PStr "Alice") (PInt 1) PNone 0.
Definition bob : user := mk_user "bob" (PStr "Bob") (PInt 2) (PStr "bob.png") 0.

Definition post_bob_old : post :=
  mk_post "o1" "p1" (PStr "first") (PStr "1.png") PNone PNone 10 "bob".
Definition post_ghost : post :=
  mk_post "o2" "p2" (PStr "second") (PStr "2.png") PNone PNone 30 "ghost".
Definition post_bob_new : post :=
  mk_post "o3" "p3" (PStr "third") (PStr "3.png") PNone (PStr "music") 20 "bob".

(** Two users, three posts of which one names a publisher that is not a
    user, an edge from alice to bob, a like of bob on his first post. *)
Definition example_store : store :=
  mk_store [alice; bob] [post_bob_old; post_ghost; post_bob_new]
           [mk_follow "alice" (PStr "bob") 5]
           [mk_like "p1" "bob" 6] [].

Definition example_world : world := mk_world example_store [].

(** The same users and posts, nobody following or liking yet. *)
Definition fresh_store : store :=
  mk_store [alice; bob] [post_bob_old; post_ghost; post_bob_new] [] [] [].

Definition fresh_world : world := mk_world fresh_store [].

Definition as_user (uid : string) (data : pyval) : request :=
  mk_request (Some uid) data.

Definition anonymous : request := mk_request None PNone.

Definition new_post_body : pyval :=
  PDict [ ("caption", PStr "hello"); ("image_url", PStr "h.png");
          ("music_url", PStr "h.mp3"); ("category", PStr "greetings") ].

(** ** Further vocabulary *)

(** A JSON body that is [null], a boolean or a number. *)
Definition is_scalar (v : pyval) : bool :=
  match v with
  | PNone | PBool _ | PInt _ | PFloat _ => true
  | _ => false
  end.

(** The routes whose view validates a JSON body (lines 131, 182, 261). *)
Definition validates_body (rt : route) : bool :=
  match rt with
  | POST_post | POST_follow | POST_post_comment _ => true
  | _ => false
  end.

(** The required fields a dict lacks, in the order they are required. *)
Definition absent_fields (required : list string) (d : list (string * pyval))
    : list string :=
  filter (fun f => match dict_lookup f d with Some _ => false | None => true end)
         required.


(** * Properties *)

(** ** Values and the clock *)

Lemma pyval_eqb_str (s : string) (v : pyval) :
  pyval_eqb (PStr s) v = true <-> v = PStr s.
Proof.
  destruct v; simpl; split; intro H; try discriminate.
  - apply String.eqb_eq in H. now subst.
  - injection H as ->. apply String.eqb_refl.
Qed.

Lemma pyval_eqb_str_r (s : string) (v : pyval) :
  pyval_eqb v (PStr s) = true <-> v = PStr s.
Proof.
  destruct v; simpl; split; intro H; try discriminate.
  - apply String.eqb_eq in H. now subst.
  - injection H as ->. apply String.eqb_refl.
Qed.

(** The class [datetime.datetime] has no attribute [timezone]. *)
Lemma datetime_timezone_missing :
  datetime_getattr "timezone" = Raise AttributeError.
Proof. reflexivity. Qed.

(** So the reading of the clock at lines 142, 197, 233 and 274 raises,
    whatever the clock holds, and leaves the store as it was. *)
Lemma datetime_now_utc_raises (e : env) (w : world) :
  datetime_now_utc e w = (Raise AttributeError, w).
Proof. reflexivity. Qed.

(** ** Running a view *)

Lemma serve_ok (view : M response) (w w' : world) (r : response) :
  view w = (Ok r, w') -> serve view w = (r, w').
Proof. unfold serve. now intros ->. Qed.

(** Unfolds the monad down to the collection operations. *)
Ltac run :=
  unfold handle, serve, view_of, jwt_required, bind, lift, ret, raise,
         query, access in *;
  simpl in *.

(** ** Lookups in a collection *)

Lemma find_post_none (pid : string) (ps : list post) :
  find (fun p => String.eqb (post_id p) pid) ps = None <->
  (forall p, In p ps -> post_id p <> pid).
Proof.
  split.
  - intros H p Hin Heq.
    apply (find_none _ _ H) in Hin. simpl in Hin.
    rewrite Heq, String.eqb_refl in Hin. discriminate.
  - intro H. destruct (find _ ps) as [p|] eqn:E; [|reflexivity].
    apply find_some in E as [Hin Heq]. apply String.eqb_eq in Heq.
    now apply H in Hin.
Qed.

Lemma find_user_none (uid : string) (us : list user) :
  find (fun u => pyval_eqb (PStr (user_id u)) (PStr uid)) us = None <->
  (forall u, In u us -> user_id u <> uid).
Proof.
  split.
  - intros H u Hin Heq.
    apply (find_none _ _ H) in Hin. simpl in Hin.
    rewrite Heq, String.eqb_refl in Hin. discriminate.
  - intro H. destruct (find _ us) as [u|] eqn:E; [|reflexivity].
    apply find_some in E as [Hin Heq]. simpl in Heq.
    apply String.eqb_eq in Heq. now apply H in Hin.
Qed.

Lemma is_like_spec (pid uid : string) (l : like) :
  is_like pid uid l = true <-> like_post_id l = pid /\ like_user_id l = uid.
Proof.
  unfold is_like. rewrite andb_true_iff, !String.eqb_eq. tauto.
Qed.

Lemma find_like_none (pid uid : string) (ls : list like) :
  find (is_like pid uid) ls = None <->
  (forall l, In l ls -> ~ (like_post_id l = pid /\ like_user_id l = uid)).
Proof.
  split.
  - intros H l Hin Hl. apply (find_none _ _ H) in Hin.
    apply is_like_spec in Hl. congruence.
  - intro H. destruct (find _ ls) as [l|] eqn:E; [|reflexivity].
    apply find_some in E as [Hin Hl]. apply is_like_spec in Hl.
    now apply H in Hin.
Qed.

Lemma find_like_some (pid uid : string) (ls : list like) (l : like) :
  In l ls -> like_post_id l = pid -> like_user_id l = uid ->
  exists l', find (is_like pid uid) ls = Some l'.
Proof.
  intros Hin Hp Hu. destruct (find _ ls) as [l'|] eqn:E; [now exists l'|].
  apply (find_none _ _ E) in Hin.
  assert (is_like pid uid l = true) by now apply is_like_spec.
  congruence.
Qed.

Lemma find_post_some (pid : string) (ps : list post) (p : post) :
  In p ps -> post_id p = pid ->
  exists p', find (fun q => String.eqb (post_id q) pid) ps = Some p'.
Proof.
  intros Hin Hp. destruct (find _ ps) as [p'|] eqn:E; [now exists p'|].
  apply (find_none _ _ E) in Hin. simpl in Hin.
  rewrite Hp, String.eqb_refl in Hin. discriminate.
Qed.

(** ** The feed's order *)

Lemma insert_desc_perm (p : post) (l : list post) :
  Permutation (p :: l) (insert_desc p l).
Proof.
  induction l as [|q l IH]; simpl.
  - apply Permutation_refl.
  - destruct (datetime_posted q <=? datetime_posted p).
    + apply Permutation_refl.
    + eapply perm_trans; [apply perm_swap|]. now apply perm_skip.
Qed.

Lemma sort_desc_perm (l : list post) : Permutation l (sort_desc l).
Proof.
  induction l as [|p l IH]; simpl.
  - apply perm_nil.
  - eapply perm_trans; [apply perm_skip, IH|]. apply insert_desc_perm.
Qed.

Lemma insert_desc_sorted (p : post) (l : list post) :
  StronglySorted newest_first l -> StronglySorted newest_first (insert_desc p l).
Proof.
  induction 1 as [|q l Hs IH Hq]; simpl.
  - constructor; constructor.
  - destruct (datetime_posted q <=? datetime_posted p) eqn:E.
    + apply Z.leb_le in E. constructor.
      * now constructor.
      * constructor; [exact E|].
        eapply Forall_impl; [|exact Hq]. unfold newest_first. intros; lia.
    + apply Z.leb_gt in E. constructor; [exact IH|].
      apply (Permutation_Forall (insert_desc_perm p l)).
      constructor; [unfold newest_first; lia | exact Hq].
Qed.

Lemma sort_desc_sorted (l : list post) : StronglySorted newest_first (sort_desc l).
Proof.
  induction l as [|p l IH]; simpl.
  - constructor.
  - now apply insert_desc_sorted.
Qed.

(** In a list sorted newest first, whatever comes later is not newer. *)
Lemma sorted_no_older_first (l before between after : list post) (a b : post) :
  StronglySorted newest_first l ->
  l = (before ++ a :: between ++ b :: after)%list ->
  datetime_posted b <= datetime_posted a.
Proof.
  intros Hs ->. revert Hs. induction before as [|x before IH]; simpl; intro Hs.
  - apply StronglySorted_inv in Hs as [_ Hall].
    rewrite Forall_forall in Hall. apply Hall.
    apply in_or_app. right. now left.
  - apply StronglySorted_inv in Hs as [Hs _]. now apply IH.
Qed.

(** ** GET /feed *)

Lemma publisher_in_spec (s : store) (uid : string) (p : post) :
  publisher_in
    (map following_id (filter (fun f => String.eqb (follower_id f) uid) (follows s))) p
  = true <-> follows_user s uid (publisher_id p).
Proof.
  unfold publisher_in, follows_user. rewrite existsb_exists. split.
  - intros (v & Hin & Heq). apply in_map_iff in Hin as (f & <- & Hf).
    apply filter_In in Hf as [Hf Hu]. apply String.eqb_eq in Hu.
    apply pyval_eqb_str in Heq. now exists f.
  - intros (f & Hin & Hu & Ht). exists (following_id f). split.
    + apply in_map. apply filter_In. split; [exact Hin|]. now apply String.eqb_eq.
    + now apply pyval_eqb_str.
Qed.

Lemma get_feed_run (uid : string) (w : world) :
  get_feed uid w =
  (Ok (mk_response
         (PList (map post_document
            (sort_desc
               (filter
                  (publisher_in
                     (map following_id
                        (filter (fun f => String.eqb (follower_id f) uid)
                                (follows (db w)))))
                  (posts (db w))))))
         200),
   mk_world (db w) ((Posts, Find) :: (Follows, Find) :: trace w)).
Proof. reflexivity. Qed.

(** C3.  For a request whose token resolves to a user, GET /feed answers
    200 with the stored posts whose publisher the user follows, each as
    often as it is stored, newest first: no post stands before a strictly
    newer one.  The answer is the empty sequence when the user follows
    nobody, and the store is left as it was. *)
Theorem get_feed_followed_newest_first (e : env) (r : request) (w : world) (uid : string) :
  identity r = Some uid ->
  exists feed,
    fst (handle e GET_feed r w) = mk_response (PList (map post_document feed)) 200 /\
    db (snd (handle e GET_feed r w)) = db w /\
    (forall p, In p feed <->
               In p (posts (db w)) /\ follows_user (db w) uid (publisher_id p)) /\
    (forall followed : post -> bool,
        (forall p, followed p = true <-> follows_user (db w) uid (publisher_id p)) ->
        Permutation feed (filter followed (posts (db w)))) /\
    StronglySorted newest_first feed /\
    (forall before a between b after,
        feed = (before ++ a :: between ++ b :: after)%list ->
        ~ datetime_posted a < datetime_posted b) /\
    ((forall f, In f (follows (db w)) -> follower_id f <> uid) -> feed = []).
Proof.
  intro Hid.
  set (ids := map following_id
                (filter (fun f => String.eqb (follower_id f) uid) (follows (db w)))).
  exists (sort_desc (filter (publisher_in ids) (posts (db w)))).
  assert (Hrun : handle e GET_feed r w =
                 (mk_response
                    (PList (map post_document
                       (sort_desc (filter (publisher_in ids) (posts (db w)))))) 200,
                  mk_world (db w) ((Posts, Find) :: (Follows, Find) :: trace w))).
  { unfold handle, view_of, jwt_required. rewrite Hid.
    apply serve_ok. apply get_feed_run. }
  rewrite Hrun. simpl fst. simpl snd. simpl db.
  split; [reflexivity|]. split; [reflexivity|].
  split; [|split; [|split; [|split]]].
  - intro p. split.
    + intro Hin.
      apply (Permutation_in _ (Permutation_sym (sort_desc_perm _))) in Hin.
      apply filter_In in Hin as [Hin Hf]. split; [exact Hin|].
      now apply publisher_in_spec in Hf.
    + intros [Hin Hf]. apply (Permutation_in _ (sort_desc_perm _)).
      apply filter_In. split; [exact Hin|]. now apply publisher_in_spec.
  - intros followed Hfollowed.
    eapply perm_trans; [apply Permutation_sym, sort_desc_perm|].
    rewrite (filter_ext (publisher_in ids) followed); [apply Permutation_refl|].
    intro p. destruct (followed p) eqn:E.
    + apply publisher_in_spec. now apply Hfollowed.
    + destruct (publisher_in ids p) eqn:E'; [|reflexivity].
      apply publisher_in_spec, Hfollowed in E'. congruence.
  - apply sort_desc_sorted.
  - intros before a between b after Heq Hlt.
    pose proof (sorted_no_older_first _ _ _ _ _ _ (sort_desc_sorted _) Heq). lia.
  - intro Hnone.
    assert (Hids : ids = []).
    { unfold ids. replace (filter _ (follows (db w))) with (@nil follow); [reflexivity|].
      symmetry. destruct (filter _ (follows (db w))) as [|f fs] eqn:E; [reflexivity|].
      assert (Hin : In f (f :: fs)) by now left.
      rewrite <- E in Hin. apply filter_In in Hin as [Hin Hu].
      apply String.eqb_eq in Hu. now apply Hnone in Hin. }
    rewrite Hids. clear. unfold publisher_in. simpl.
    induction (posts (db w)) as [|p ps IH]; [reflexivity|exact IH].
Qed.

(** ** DELETE /post/<post_id>/like *)

Lemma remove_first_split {A} (f : A -> bool) (l : list A) (x : A) :
  find f l = Some x ->
  exists before after,
    l = (before ++ x :: after)%list /\
    (forall y, In y before -> f y = false) /\
    remove_first f l = (before ++ after)%list.
Proof.
  induction l as [|y l IH]; simpl; [discriminate|].
  destruct (f y) eqn:E.
  - intros [= ->]. exists [], l. repeat split. intros y [].
  - intro H. destruct (IH H) as (before & after & -> & Hb & Hr).
    exists (y :: before), after. simpl. repeat split.
    + intros z [<-|Hz]; [exact E|now apply Hb].
    + now rewrite Hr.
Qed.

Lemma unlike_post_run (uid pid : string) (w : world) :
  unlike_post uid pid w =
  match find (fun p => String.eqb (post_id p) pid) (posts (db w)) with
  | None =>
      (Ok (mk_response (error "Post not found") 404),
       mk_world (db w) ((Posts, FindOne) :: trace w))
  | Some _ =>
      match find (is_like pid uid) (likes (db w)) with
      | None =>
          (Ok (mk_response (message "Post not liked yet") 200),
           mk_world (db w) ((Likes, FindOne) :: (Posts, FindOne) :: trace w))
      | Some _ =>
          (Ok (mk_response (message "Post unliked successfully") 200),
           mk_world
             (mk_store (users (db w)) (posts (db w)) (follows (db w))
                       (remove_first (is_like pid uid) (likes (db w)))
                       (comments (db w)))
             ((Likes, DeleteOne) :: (Likes, FindOne) :: (Posts, FindOne) :: trace w))
      end
  end.
Proof.
  unfold unlike_post. run.
  destruct (find _ (posts (db w))); [|reflexivity].
  simpl. destruct (find _ (likes (db w))); reflexivity.
Qed.

(** C7.  DELETE /post/<post_id>/like by an authenticated user: no post
    with that id, the answer is 404 and the store is untouched; the post is
    there and the user has no like on it, the answer is the message "Post
    not liked yet" and the store is untouched; the user has a like on it,
    the answer is the message "Post unliked successfully", the first such
    like is taken out of the likes collection and nothing else changes. *)
Theorem unlike_post_cases (e : env) (r : request) (w : world) (uid pid : string) :
  identity r = Some uid ->
  ((forall p, In p (posts (db w)) -> post_id p <> pid) ->
     fst (handle e (DELETE_post_like pid) r w) = mk_response (error "Post not found") 404 /\
     db (snd (handle e (DELETE_post_like pid) r w)) = db w) /\
  ((exists p, In p (posts (db w)) /\ post_id p = pid) ->
   (forall l, In l (likes (db w)) -> ~ (like_post_id l = pid /\ like_user_id l = uid)) ->
     fst (handle e (DELETE_post_like pid) r w) = mk_response (message "Post not liked yet") 200 /\
     db (snd (handle e (DELETE_post_like pid) r w)) = db w) /\
  ((exists p, In p (posts (db w)) /\ post_id p = pid) ->
   (exists l, In l (likes (db w)) /\ like_post_id l = pid /\ like_user_id l = uid) ->
     fst (handle e (DELETE_post_like pid) r w)
       = mk_response (message "Post unliked successfully") 200 /\
     exists before l after,
       likes (db w) = (before ++ l :: after)%list /\
       like_post_id l = pid /\ like_user_id l = uid /\
       (forall l', In l' before -> ~ (like_post_id l' = pid /\ like_user_id l' = uid)) /\
       db (snd (handle e (DELETE_post_like pid) r w)) =
         mk_store (users (db w)) (posts (db w)) (follows (db w))
                  (before ++ after) (comments (db w))).
Proof.
  intro Hid.
  assert (Hrun : handle e (DELETE_post_like pid) r w = serve (unlike_post uid pid) w).
  { unfold handle, view_of, jwt_required. now rewrite Hid. }
  rewrite Hrun. unfold serve. rewrite unlike_post_run.
  split; [|split].
  - intro Habsent. apply find_post_none in Habsent. rewrite Habsent.
    split; reflexivity.
  - intros (p & Hin & Hp) Hnot.
    destruct (find_post_some _ _ _ Hin Hp) as [p' ->].
    apply find_like_none in Hnot. rewrite Hnot. simpl. split; [reflexivity|].
    now destruct (db w).
  - intros (p & Hin & Hp) (l & Hl & Hlp & Hlu).
    destruct (find_post_some _ _ _ Hin Hp) as [p' ->].
    destruct (find_like_some _ _ _ _ Hl Hlp Hlu) as [l' Hfind]. rewrite Hfind.
    simpl. split; [reflexivity|].
    destruct (remove_first_split _ _ _ Hfind) as (before & after & Heq & Hb & Hr).
    pose proof (find_some _ _ Hfind) as [_ Hl'].
    apply is_like_spec in Hl' as [Hp' Hu'].
    exists before, l', after. rewrite Hr.
    split; [exact Heq|]. split; [exact Hp'|]. split; [exact Hu'|].
    split; [|reflexivity].
    intros x Hx Hpair. apply is_like_spec in Hpair.
    rewrite (Hb x Hx) in Hpair. discriminate.
Qed.

(** ** Validation *)

(** C8.  POST /post by an authenticated user with a JSON object that has
    no [caption]: the answer is 400, its error text contains the name
    [caption], and the state is the one before the request: no post is
    inserted, no collection is touched. *)
Theorem create_post_missing_caption
    (e : env) (r : request) (w : world) (uid : string) (d : list (string * pyval)) :
  identity r = Some uid ->
  json r = PDict d ->
  dict_lookup "caption" d = None ->
  exists msg,
    handle e POST_post r w = (mk_response (error msg) 400, w) /\
    names_field "caption" msg.
Proof.
  intros Hid Hjson Hcaption.
  unfold handle, view_of, jwt_required. rewrite Hid, Hjson.
  unfold create_post, validate_request, missing_fields, py_contains.
  rewrite Hcaption.
  destruct (dict_lookup "image_url" d).
  - exists "Missing fields: caption". split; [reflexivity|].
    now exists "Missing fields: ", "".
  - exists "Missing fields: caption, image_url". split; [reflexivity|].
    now exists "Missing fields: ", ", image_url".
Qed.

(** C10.  POST /post/<post_id>/comment by an authenticated user with a
    JSON object that has no [comment]: the answer is 400 with the text
    "Missing fields: comment", whatever [post_id] is and whatever the store
    holds.  The state is the one before the request, so the posts
    collection has not been consulted and the answer is not the 404 of a
    missing post. *)
Theorem add_comment_validates_before_lookup
    (e : env) (r : request) (w : world) (uid pid : string) (d : list (string * pyval)) :
  identity r = Some uid ->
  json r = PDict d ->
  dict_lookup "comment" d = None ->
  handle e (POST_post_comment pid) r w
    = (mk_response (error "Missing fields: comment") 400, w) /\
  names_field "comment" "Missing fields: comment" /\
  status (fst (handle e (POST_post_comment pid) r w)) <> 404.
Proof.
  intros Hid Hjson Hcomment.
  assert (Hrun : handle e (POST_post_comment pid) r w
                 = (mk_response (error "Missing fields: comment") 400, w)).
  { unfold handle, view_of, jwt_required. rewrite Hid, Hjson.
    unfold add_comment, validate_request, missing_fields, py_contains.
    now rewrite Hcomment. }
  rewrite Hrun. split; [reflexivity|]. split.
  - now exists "Missing fields: ", "".
  - simpl. lia.
Qed.

(** ** GET /user/profile *)

(** C9.  GET /user/profile with a token that resolves to no identity, or
    with none: the answer has status 401 and the state is the one before
    the request, so neither the users nor the posts collection, nor any
    other, has been read. *)
Theorem get_profile_unauthenticated (e : env) (r : request) (w : world) :
  identity r = None ->
  status (fst (handle e GET_user_profile r w)) = 401 /\
  trace (snd (handle e GET_user_profile r w)) = trace w /\
  snd (handle e GET_user_profile r w) = w.
Proof.
  intro Hid. unfold handle, view_of, jwt_required. rewrite Hid.
  repeat split.
Qed.

(** With a token that resolves, the view starts by reading the users
    collection: the check above is the only one that comes before a read. *)
Lemma get_profile_authenticated_reads_users (e : env) (r : request) (w : world) (uid : string) :
  identity r = Some uid ->
  exists rest, trace (snd (handle e GET_user_profile r w))
               = (rest ++ (Users, FindOne) :: trace w)%list.
Proof.
  intro Hid. unfold handle, view_of, jwt_required. rewrite Hid.
  unfold get_profile. run.
  destruct (find _ (users (db w))).
  - now exists [(Posts, Find)].
  - now exists [].
Qed.

(** ** The views that write *)

(** Every view that inserts reads the clock first, through
    [datetime.now(datetime.timezone.utc)]; the reading raises, so the
    insertion that follows it is never reached. *)

Lemma create_post_outcome (e : env) (uid : string) (data : pyval) (w : world) :
  snd (create_post e uid data w) = w /\
  (forall resp, fst (create_post e uid data w) = Ok resp -> status resp = 400).
Proof.
  unfold create_post. run.
  destruct (validate_request _ data) as [[[] v]|x]; simpl.
  - destruct (py_getitem data "caption"); simpl; [|now split].
    destruct (py_getitem data "image_url"); simpl; [|now split].
    destruct (py_get data "music_url"); simpl; [|now split].
    destruct (py_get data "category"); simpl; now split.
  - split; [reflexivity|]. now intros resp [= <-].
  - now split.
Qed.

(** A request body with both required fields gets as far as the clock. *)
Lemma create_post_valid_raises
    (e : env) (uid : string) (d : list (string * pyval)) (w : world) (c i : pyval) :
  dict_lookup "caption" d = Some c ->
  dict_lookup "image_url" d = Some i ->
  create_post e uid (PDict d) w = (Raise AttributeError, w).
Proof.
  intros Hc Hi. unfold create_post, validate_request, missing_fields, py_contains.
  rewrite Hc, Hi. run. now rewrite Hc, Hi.
Qed.

Lemma follow_user_keeps_store (e : env) (uid : string) (data : pyval) (w : world) :
  db (snd (follow_user e uid data w)) = db w.
Proof.
  unfold follow_user. run.
  destruct (validate_request _ data) as [[[] v]|x]; simpl; try reflexivity.
  destruct (py_get data "follow_user_id"); simpl; [|reflexivity].
  destruct (find _ (users (db w))); simpl; [|reflexivity].
  destruct (find _ (follows (db w))); reflexivity.
Qed.

(** Following a user that exists, with no edge yet, raises. *)
Lemma follow_user_new_edge_raises
    (e : env) (uid target : string) (d : list (string * pyval)) (w : world) (u : user) :
  dict_lookup "follow_user_id" d = Some (PStr target) ->
  In u (users (db w)) -> user_id u = target ->
  (forall f, In f (follows (db w)) ->
             ~ (follower_id f = uid /\ following_id f = PStr target)) ->
  fst (follow_user e uid (PDict d) w) = Raise AttributeError.
Proof.
  intros Hd Hu Hid Hnone.
  unfold follow_user, validate_request, missing_fields, py_contains, py_get.
  rewrite Hd. run.
  destruct (find _ (users (db w))) as [u'|] eqn:Eu.
  - simpl. destruct (find (is_edge uid (PStr target)) (follows (db w))) as [f|] eqn:Ef.
    + apply find_some in Ef as [Hin Hf]. unfold is_edge in Hf.
      apply andb_true_iff in Hf as [Hf1 Hf2].
      apply String.eqb_eq in Hf1. apply pyval_eqb_str_r in Hf2.
      exfalso. now apply (Hnone f Hin).
    + reflexivity.
  - apply (find_none _ _ Eu) in Hu. simpl in Hu.
    rewrite Hid, String.eqb_refl in Hu. discriminate.
Qed.

(** With the edge already stored, the answer is the message of line 192
    and nothing is written. *)
Lemma follow_user_existing_edge
    (e : env) (uid target : string) (d : list (string * pyval)) (w : world)
    (u : user) (f : follow) :
  dict_lookup "follow_user_id" d = Some (PStr target) ->
  In u (users (db w)) -> user_id u = target ->
  In f (follows (db w)) -> follower_id f = uid -> following_id f = PStr target ->
  fst (follow_user e uid (PDict d) w) = Ok (mk_response (message "Already following") 200).
Proof.
  intros Hd Hu Hid Hf Hf1 Hf2.
  unfold follow_user, validate_request, missing_fields, py_contains, py_get.
  rewrite Hd. run.
  destruct (find _ (users (db w))) as [u'|] eqn:Eu.
  - simpl. destruct (find (is_edge uid (PStr target)) (follows (db w))) as [f'|] eqn:Ef.
    + reflexivity.
    + apply (find_none _ _ Ef) in Hf. unfold is_edge in Hf.
      rewrite Hf1, Hf2, String.eqb_refl in Hf. simpl in Hf.
      rewrite String.eqb_refl in Hf. discriminate.
  - apply (find_none _ _ Eu) in Hu. simpl in Hu.
    rewrite Hid, String.eqb_refl in Hu. discriminate.
Qed.

Lemma like_post_keeps_store (e : env) (uid pid : string) (w : world) :
  db (snd (like_post e uid pid w)) = db w.
Proof.
  unfold like_post. run.
  destruct (find _ (posts (db w))); simpl; [|reflexivity].
  destruct (find _ (likes (db w))); reflexivity.
Qed.

(** Liking a post that exists and that the user has not liked raises. *)
Lemma like_post_new_like_raises (e : env) (uid pid : string) (w : world) (p : post) :
  In p (posts (db w)) -> post_id p = pid ->
  (forall l, In l (likes (db w)) -> ~ (like_post_id l = pid /\ like_user_id l = uid)) ->
  fst (like_post e uid pid w) = Raise AttributeError.
Proof.
  intros Hin Hp Hnone. unfold like_post. run.
  destruct (find_post_some _ _ _ Hin Hp) as [p' ->]. simpl.
  apply find_like_none in Hnone. now rewrite Hnone.
Qed.

(** With the like already stored, the answer is the message of line 228
    and nothing is written. *)
Lemma like_post_existing_like (e : env) (uid pid : string) (w : world) (p : post) (l : like) :
  In p (posts (db w)) -> post_id p = pid ->
  In l (likes (db w)) -> like_post_id l = pid -> like_user_id l = uid ->
  fst (like_post e uid pid w) = Ok (mk_response (message "Post already liked") 200).
Proof.
  intros Hin Hp Hl Hlp Hlu. unfold like_post. run.
  destruct (find_post_some _ _ _ Hin Hp) as [p' ->]. simpl.
  now destruct (find_like_some _ _ _ _ Hl Hlp Hlu) as [l' ->].
Qed.

(** ** GET /post/<post_id> *)

(** The publisher of a stored post is not a stored user: [find_one]
    returns [None] at line 157 and [publisher["username"]] at line 166
    raises, before the counts are read. *)
Lemma get_post_details_missing_publisher (pid : string) (w : world) (p : post) :
  find (fun q => String.eqb (post_id q) pid) (posts (db w)) = Some p ->
  (forall u, In u (users (db w)) -> user_id u <> publisher_id p) ->
  get_post_details pid w =
  (Raise TypeError, mk_world (db w) ((Users, FindOne) :: (Posts, FindOne) :: trace w)).
Proof.
  intros Hp Hnone. apply find_user_none in Hnone.
  unfold get_post_details. run. rewrite Hp. simpl. now rewrite Hnone.
Qed.

(** The publisher is a stored user: the answer carries the four content
    fields as they are stored. *)
Lemma get_post_details_stored_fields (pid : string) (w : world) (p : post) (u : user) :
  find (fun q => String.eqb (post_id q) pid) (posts (db w)) = Some p ->
  find (fun v => pyval_eqb (PStr (user_id v)) (PStr (publisher_id p))) (users (db w)) = Some u ->
  exists resp,
    fst (get_post_details pid w) = Ok resp /\
    status resp = 200 /\
    py_get (body resp) "caption" = Ok (caption p) /\
    py_get (body resp) "image_url" = Ok (image_url p) /\
    py_get (body resp) "music_url" = Ok (music_url p) /\
    py_get (body resp) "category" = Ok (category p).
Proof.
  intros Hp Hu. unfold get_post_details. run. rewrite Hp. simpl. rewrite Hu. simpl.
  eexists. split; [reflexivity|]. repeat split.
Qed.

(** C1.  The post "p2" of the example store names the publisher "ghost",
    who is not a user.  GET /post/p2 finds the post, looks the publisher
    up, and raises [TypeError] when it subscripts the missing publisher;
    what the client gets is the answer of the 500 handler. *)
Theorem get_post_details_orphan_post_raises :
  get_post_details "p2" example_world =
    (Raise TypeError,
     mk_world example_store [(Users, FindOne); (Posts, FindOne)]) /\
  fst (handle example_env (GET_post "p2") anonymous example_world) = internal_error.
Proof. split; reflexivity. Qed.

(** ** POST /post *)

(** C2.  POST /post by alice with a body that has a caption and an image:
    the view raises [AttributeError] while it builds the post, the answer
    is that of the 500 handler, not 201, and no post is stored.  The same
    holds for every request: the route never answers 201 and never changes
    the posts collection. *)
Theorem create_post_valid_body_fails :
  create_post example_env "alice" new_post_body fresh_world
    = (Raise AttributeError, fresh_world) /\
  handle example_env POST_post (as_user "alice" new_post_body) fresh_world
    = (internal_error, fresh_world) /\
  (forall e r w,
      status (fst (handle e POST_post r w)) <> 201 /\
      posts (db (snd (handle e POST_post r w))) = posts (db w)).
Proof.
  split; [reflexivity|]. split; [reflexivity|].
  intros e r w. unfold handle, view_of, jwt_required, serve.
  destruct (identity r) as [uid|]; [|simpl; split; [lia|reflexivity]].
  destruct (create_post_outcome e uid (json r) w) as [Hw Hst].
  destruct (create_post e uid (json r) w) as [[resp|x] w']; simpl in *; subst w'.
  - rewrite (Hst resp eq_refl). split; [lia|reflexivity].
  - split; [lia|reflexivity].
Qed.

(** C6.  Creation followed by retrieval.  POST /post by alice with all
    four content fields answers 500 and carries no [post_id]; the posts
    collection is as before, and GET /post/<id> for the identifier the
    view had drawn answers 404: there is nothing to read back. *)
Theorem create_then_get_post_details_fails :
  let created := handle example_env POST_post (as_user "alice" new_post_body) fresh_world in
  fst created = internal_error /\
  py_get (body (fst created)) "post_id" = Ok PNone /\
  posts (db (snd created)) = posts fresh_store /\
  fst (handle later_env (GET_post (fresh_uuid example_env)) anonymous (snd created))
    = mk_response (error "Post not found") 404.
Proof. repeat split. Qed.

(** ** POST /follow *)

(** C4.  Alice follows bob, who exists, twice, starting with no edge.
    Both requests raise [AttributeError] at the clock and are answered by
    the 500 handler; the follows collection is empty afterwards, where one
    edge was due.  In general the route never changes the store. *)
Theorem follow_twice_stores_no_edge :
  let data := PDict [("follow_user_id", PStr "bob")] in
  let first := handle example_env POST_follow (as_user "alice" data) fresh_world in
  let second := handle later_env POST_follow (as_user "alice" data) (snd first) in
  fst first = internal_error /\
  fst second = internal_error /\
  follows (db (snd second)) = [] /\
  (forall e r w, db (snd (handle e POST_follow r w)) = db w).
Proof.
  split; [reflexivity|]. split; [reflexivity|]. split; [reflexivity|].
  intros e r w. unfold handle, view_of, jwt_required, serve.
  destruct (identity r) as [uid|]; [|reflexivity].
  pose proof (follow_user_keeps_store e uid (json r) w) as H.
  now destruct (follow_user e uid (json r) w) as [[resp|x] w'].
Qed.

(** ** POST /post/<post_id>/like *)

(** C5.  Alice likes the stored post "p1" twice, starting with no like.
    Both requests raise [AttributeError] at the clock and are answered by
    the 500 handler: the second answer is not the message "Post already
    liked", and the count of likes of the post is 0 afterwards, not 1.  In
    general the route never changes the store. *)
Theorem like_twice_stores_no_like :
  let first := handle example_env (POST_post_like "p1") (as_user "alice" PNone) fresh_world in
  let second := handle later_env (POST_post_like "p1") (as_user "alice" PNone) (snd first) in
  fst first = internal_error /\
  fst second = internal_error /\
  fst second <> mk_response (message "Post already liked") 200 /\
  count_likes "p1" (db (snd second)) = 0 /\
  (forall e pid r w, db (snd (handle e (POST_post_like pid) r w)) = db w).
Proof.
  split; [reflexivity|]. split; [reflexivity|]. split; [discriminate|].
  split; [reflexivity|].
  intros e pid r w. unfold handle, view_of, jwt_required, serve.
  destruct (identity r) as [uid|]; [|reflexivity].
  pose proof (like_post_keeps_store e uid pid w) as H.
  now destruct (like_post e uid pid w) as [[resp|x] w'].
Qed.

(** ** Instances *)

Lemma get_feed_followed_newest_first_witness :
  exists feed,
    fst (handle example_env GET_feed (as_user "alice" PNone) example_world)
      = mk_response (PList (map post_document feed)) 200 /\
    StronglySorted newest_first feed.
Proof.
  destruct (get_feed_followed_newest_first example_env (as_user "alice" PNone)
              example_world "alice" eq_refl)
    as (feed & Hresp & _ & _ & _ & Hsorted & _).
  exists feed. split; assumption.
Defined.

Lemma unlike_post_cases_witness :
  fst (handle example_env (DELETE_post_like "p1") (as_user "bob" PNone) example_world)
    = mk_response (message "Post unliked successfully") 200 /\
  fst (handle example_env (DELETE_post_like "p1") (as_user "alice" PNone) example_world)
    = mk_response (message "Post not liked yet") 200 /\
  fst (handle example_env (DELETE_post_like "p9") (as_user "alice" PNone) example_world)
    = mk_response (error "Post not found") 404.
Proof.
  split; [|split].
  - apply (unlike_post_cases example_env (as_user "bob" PNone) example_world
             "bob" "p1" eq_refl).
    + exists post_bob_old. split; [now left|reflexivity].
    + exists (mk_like "p1" "bob" 6). split; [now left|]. split; reflexivity.
  - apply (unlike_post_cases example_env (as_user "alice" PNone) example_world
             "alice" "p1" eq_refl).
    + exists post_bob_old. split; [now left|reflexivity].
    + intros l [<-|[]] [_ Hu]. discriminate.
  - apply (unlike_post_cases example_env (as_user "alice" PNone) example_world
             "alice" "p9" eq_refl).
    intros p [<-|[<-|[<-|[]]]]; discriminate.
Defined.

Lemma create_post_missing_caption_witness :
  exists msg,
    handle example_env POST_post
      (as_user "alice" (PDict [("image_url", PStr "h.png")])) fresh_world
      = (mk_response (error msg) 400, fresh_world) /\
    names_field "caption" msg.
Proof.
  apply (create_post_missing_caption example_env _ fresh_world "alice"
           [("image_url", PStr "h.png")]); reflexivity.
Defined.

Lemma add_comment_validates_before_lookup_witness :
  handle example_env (POST_post_comment "p9") (as_user "alice" (PDict [])) fresh_world
    = (mk_response (error "Missing fields: comment") 400, fresh_world).
Proof.
  apply (add_comment_validates_before_lookup example_env _ fresh_world "alice" "p9" []);
    reflexivity.
Defined.

Lemma get_profile_unauthenticated_witness :
  status (fst (handle example_env GET_user_profile anonymous example_world)) = 401 /\
  trace (snd (handle example_env GET_user_profile anonymous example_world)) = [].
Proof.
  destruct (get_profile_unauthenticated example_env anonymous example_world eq_refl)
    as (Hstatus & Htrace & _).
  split; assumption.
Defined.

(** * Further properties *)

(** ** [validate_request] *)

Lemma str_app_nil_r (s : string) : s ++ "" = s.
Proof. induction s as [|c s IH]; simpl; [reflexivity|now rewrite IH]. Qed.

Lemma str_app_assoc (a b c : string) : (a ++ b) ++ c = a ++ (b ++ c).
Proof. induction a as [|x a IH]; simpl; [reflexivity|now rewrite IH]. Qed.

Lemma names_field_prefixed (f p msg : string) :
  names_field f msg -> names_field f (p ++ msg).
Proof.
  intros (before & after & ->). exists (p ++ before), after.
  now rewrite str_app_assoc.
Qed.

Lemma join_comma_names (f : string) (fields : list string) :
  In f fields -> names_field f (join_comma fields).
Proof.
  induction fields as [|g fields IH]; [intros []|].
  intros [->|Hin].
  - destruct fields as [|h fields].
    + exists "", "". simpl. now rewrite str_app_nil_r.
    + exists "", (", " ++ join_comma (h :: fields)). reflexivity.
  - destruct fields as [|h fields]; [destruct Hin|].
    change (join_comma (g :: h :: fields))
      with (g ++ ", " ++ join_comma (h :: fields)).
    apply names_field_prefixed, names_field_prefixed. now apply IH.
Qed.

Lemma missing_fields_dict (required : list string) (d : list (string * pyval)) :
  missing_fields required (PDict d) = Ok (absent_fields required d).
Proof.
  induction required as [|f required IH]; simpl; [reflexivity|].
  rewrite IH. now destruct (dict_lookup f d).
Qed.

Lemma absent_fields_nil (required : list string) (d : list (string * pyval)) :
  absent_fields required d = [] <->
  (forall f, In f required -> exists v, dict_lookup f d = Some v).
Proof.
  unfold absent_fields. induction required as [|g required IH]; simpl.
  - split; [intros _ f []|reflexivity].
  - destruct (dict_lookup g d) as [v|] eqn:E.
    + rewrite IH. split.
      * intros H f [<-|Hin]; [now exists v|now apply H].
      * intros H f Hin. apply H. now right.
    + split; [discriminate|].
      intro H. destruct (H g (or_introl eq_refl)) as [v Hv]. congruence.
Qed.

(** X1.  On a JSON object [validate_request] never raises, and it accepts
    exactly when every required field is a key of the object. *)
Theorem validate_request_accepts_complete_objects
    (required : list string) (d : list (string * pyval)) :
  (exists verdict, validate_request required (PDict d) = Ok verdict) /\
  (validate_request required (PDict d) = Ok (true, PDict []) <->
   forall f, In f required -> exists v, dict_lookup f d = Some v).
Proof.
  unfold validate_request. rewrite missing_fields_dict.
  destruct (absent_fields required d) as [|g missing] eqn:E.
  - split; [now eexists|]. split; [|reflexivity].
    intros _. now apply absent_fields_nil.
  - split; [now eexists|]. split; [discriminate|].
    intro H. apply absent_fields_nil in H. congruence.
Qed.

(** X2.  When a JSON object lacks a required field, [validate_request]
    rejects it with an error text that begins "Missing fields: " and
    contains the name of that field, whichever other fields are missing
    with it. *)
Theorem validate_request_names_each_missing_field
    (required : list string) (d : list (string * pyval)) (f : string) :
  In f required ->
  dict_lookup f d = None ->
  exists listing,
    validate_request required (PDict d)
      = Ok (false, error ("Missing fields: " ++ listing)) /\
    names_field f listing.
Proof.
  intros Hin Hf. unfold validate_request. rewrite missing_fields_dict.
  assert (Habsent : In f (absent_fields required d)).
  { unfold absent_fields. apply filter_In. split; [exact Hin|]. now rewrite Hf. }
  destruct (absent_fields required d) as [|g missing] eqn:E; [destruct Habsent|].
  exists (join_comma (g :: missing)). split; [reflexivity|].
  now apply join_comma_names.
Qed.

Lemma validate_request_names_each_missing_field_witness :
  exists listing,
    validate_request ["caption"; "image_url"] (PDict [("caption", PStr "hello")])
      = Ok (false, error ("Missing fields: " ++ listing)) /\
    names_field "image_url" listing.
Proof.
  apply validate_request_names_each_missing_field.
  - right. now left.
  - reflexivity.
Defined.

Lemma serve_raise_at (view : M response) (w w' : world) (x : exn) :
  view w = (Raise x, w') -> serve view w = (internal_error, w').
Proof. unfold serve. now intros ->. Qed.

Lemma validate_request_scalar (f : string) (required : list string) (data : pyval) :
  is_scalar data = true ->
  validate_request (f :: required) data = Raise TypeError.
Proof. destruct data; simpl; intro H; try discriminate; reflexivity. Qed.

(** X3.  A body that is [null], a boolean or a number is not answered
    with 400: on each of the three routes that validate a body the test
    [field not in data] raises [TypeError], the client gets the answer of
    the 500 handler, and no collection is touched. *)
Theorem scalar_body_is_answered_500
    (e : env) (rt : route) (r : request) (w : world) (uid : string) :
  validates_body rt = true ->
  identity r = Some uid ->
  is_scalar (json r) = true ->
  handle e rt r w = (internal_error, w).
Proof.
  intros Hrt Hid Hscalar.
  destruct rt; try discriminate;
    unfold handle, view_of, jwt_required; rewrite Hid;
    apply (serve_raise_at _ _ _ TypeError).
  - unfold create_post. run. now rewrite (validate_request_scalar _ _ _ Hscalar).
  - unfold follow_user. run. now rewrite (validate_request_scalar _ _ _ Hscalar).
  - unfold add_comment. run. now rewrite (validate_request_scalar _ _ _ Hscalar).
Qed.

Lemma scalar_body_is_answered_500_witness :
  handle example_env POST_follow (as_user "alice" (PInt 7)) fresh_world
    = (internal_error, fresh_world).
Proof.
  apply (scalar_body_is_answered_500 example_env POST_follow _ fresh_world "alice");
    reflexivity.
Defined.

Lemma contains_element (f : string) (items : list pyval) :
  In (PStr f) items -> py_contains f (PList items) = Ok true.
Proof.
  intro Hin. simpl. f_equal. apply existsb_exists.
  exists (PStr f). split; [exact Hin|]. now apply pyval_eqb_str_r.
Qed.

(** X4.  A JSON array that holds the strings "caption" and "image_url"
    passes the validation of POST /post, since [in] on a list tests its
    elements; the view then subscripts the list with a string at line 138,
    raises [TypeError], and the client gets the answer of the 500 handler.
    No collection is touched. *)
Theorem array_body_passes_validation_then_raises
    (e : env) (r : request) (w : world) (uid : string) (items : list pyval) :
  identity r = Some uid ->
  json r = PList items ->
  In (PStr "caption") items ->
  In (PStr "image_url") items ->
  validate_request ["caption"; "image_url"] (json r) = Ok (true, PDict []) /\
  create_post e uid (json r) w = (Raise TypeError, w) /\
  handle e POST_post r w = (internal_error, w).
Proof.
  intros Hid Hjson Hc Hi. rewrite Hjson.
  assert (Hvalid : validate_request ["caption"; "image_url"] (PList items)
                   = Ok (true, PDict [])).
  { unfold validate_request, missing_fields.
    now rewrite (contains_element _ _ Hc), (contains_element _ _ Hi). }
  assert (Hraise : create_post e uid (PList items) w = (Raise TypeError, w)).
  { unfold create_post. run. now rewrite Hvalid. }
  split; [exact Hvalid|]. split; [exact Hraise|].
  unfold handle, view_of, jwt_required. rewrite Hid, Hjson.
  now apply (serve_raise_at _ _ _ TypeError).
Qed.

Lemma array_body_passes_validation_then_raises_witness :
  handle example_env POST_post
    (as_user "alice" (PList [PStr "image_url"; PStr "caption"])) fresh_world
  = (internal_error, fresh_world).
Proof.
  apply (array_body_passes_validation_then_raises example_env _ fresh_world "alice"
           [PStr "image_url"; PStr "caption"]).
  - reflexivity.
  - reflexivity.
  - right. now left.
  - now left.
Defined.

(** ** GET /user/profile, authenticated *)

Lemma get_profile_run (uid : string) (w : world) :
  get_profile uid w =
  match find (fun u => pyval_eqb (PStr (user_id u)) (PStr uid)) (users (db w)) with
  | None =>
      (Ok (mk_response (error "User not found") 404),
       mk_world (db w) ((Users, FindOne) :: trace w))
  | Some u =>
      (Ok (mk_response
             (PDict [ ("username", username u);
                      ("profile_picture", profile_picture u);
                      ("posts",
                        PList (map post_document
                                 (filter (fun p => String.eqb (publisher_id p) uid)
                                         (posts (db w))))) ])
             200),
       mk_world (db w) ((Posts, Find) :: (Users, FindOne) :: trace w))
  end.
Proof.
  unfold get_profile. run. now destruct (find _ (users (db w))).
Qed.

(** X5.  GET /user/profile with a token whose identity is not the id of
    any stored user (the user vanished): the answer is 404 "User not
    found", the store is untouched, and the only access made is the lookup
    in the users collection; the posts collection is not read. *)
Theorem get_profile_vanished_user (e : env) (r : request) (w : world) (uid : string) :
  identity r = Some uid ->
  (forall u, In u (users (db w)) -> user_id u <> uid) ->
  handle e GET_user_profile r w =
    (mk_response (error "User not found") 404,
     mk_world (db w) ((Users, FindOne) :: trace w)).
Proof.
  intros Hid Hnone. apply find_user_none in Hnone.
  unfold handle, view_of, jwt_required. rewrite Hid.
  apply serve_ok. rewrite get_profile_run. now rewrite Hnone.
Qed.

Lemma get_profile_vanished_user_witness :
  handle example_env GET_user_profile (as_user "carol" PNone) example_world =
    (mk_response (error "User not found") 404,
     mk_world example_store [(Users, FindOne)]).
Proof.
  apply (get_profile_vanished_user example_env (as_user "carol" PNone)
           example_world "carol" eq_refl).
  intros u [<-|[<-|[]]]; discriminate.
Defined.

(** X6.  GET /user/profile with a token whose identity is the id of a
    stored user: the answer is 200 with the username and the picture of a
    stored user of that id and, under "posts", the stored posts published
    by that id, all of them and no other, in the order of the store.  The
    store is untouched. *)
Theorem get_profile_lists_own_posts (e : env) (r : request) (w : world) (uid : string) :
  identity r = Some uid ->
  (exists u, In u (users (db w)) /\ user_id u = uid) ->
  exists u own,
    In u (users (db w)) /\ user_id u = uid /\
    fst (handle e GET_user_profile r w) =
      mk_response
        (PDict [ ("username", username u);
                 ("profile_picture", profile_picture u);
                 ("posts", PList (map post_document own)) ])
        200 /\
    (forall p, In p own <-> In p (posts (db w)) /\ publisher_id p = uid) /\
    (forall mine : post -> bool,
        (forall p, mine p = true <-> publisher_id p = uid) ->
        own = filter mine (posts (db w))) /\
    db (snd (handle e GET_user_profile r w)) = db w.
Proof.
  intros Hid (u0 & Hin0 & Hu0).
  unfold handle, view_of, jwt_required. rewrite Hid.
  unfold serve. rewrite get_profile_run.
  destruct (find _ (users (db w))) as [u|] eqn:E.
  - apply find_some in E as [Hin Hu]. simpl in Hu. apply String.eqb_eq in Hu.
    exists u, (filter (fun p => String.eqb (publisher_id p) uid) (posts (db w))).
    simpl. split; [exact Hin|]. split; [exact Hu|]. split; [reflexivity|].
    split; [|split; [|reflexivity]].
    + intro p. rewrite filter_In, String.eqb_eq. tauto.
    + intros mine Hmine. apply filter_ext. intro p.
      destruct (mine p) eqn:Em.
      * apply String.eqb_eq. now apply Hmine.
      * apply String.eqb_neq. intro Hp. apply Hmine in Hp. congruence.
  - apply (find_none _ _ E) in Hin0. simpl in Hin0.
    rewrite Hu0, String.eqb_refl in Hin0. discriminate.
Qed.

Lemma get_profile_lists_own_posts_witness :
  exists u own,
    fst (handle example_env GET_user_profile (as_user "bob" PNone) example_world) =
      mk_response
        (PDict [ ("username", username u);
                 ("profile_picture", profile_picture u);
                 ("posts", PList (map post_document own)) ])
        200 /\
    (forall p, In p own <-> In p (posts example_store) /\ publisher_id p = "bob").
Proof.
  destruct (get_profile_lists_own_posts example_env (as_user "bob" PNone)
              example_world "bob" eq_refl)
    as (u & own & _ & _ & Hresp & Hown & _).
  - exists bob. split; [right; now left|reflexivity].
  - exists u, own. split; assumption.
Defined.

(** ** GET /post/<post_id>, further cases *)

(** X7.  GET /post/<post_id> for an id no stored post has: the answer is
    404 "Post not found", whoever asks; the store is untouched and only the
    posts collection has been read. *)
Theorem get_post_details_unknown_post (e : env) (r : request) (w : world) (pid : string) :
  (forall p, In p (posts (db w)) -> post_id p <> pid) ->
  handle e (GET_post pid) r w =
    (mk_response (error "Post not found") 404,
     mk_world (db w) ((Posts, FindOne) :: trace w)).
Proof.
  intro Hnone. apply find_post_none in Hnone.
  unfold handle, view_of. apply serve_ok.
  unfold get_post_details. run. now rewrite Hnone.
Qed.

Lemma get_post_details_unknown_post_witness :
  handle example_env (GET_post "p9") anonymous example_world =
    (mk_response (error "Post not found") 404,
     mk_world example_store [(Posts, FindOne)]).
Proof.
  apply (get_post_details_unknown_post example_env anonymous example_world "p9").
  intros p [<-|[<-|[<-|[]]]]; discriminate.
Defined.

(** X8.  GET /post/<post_id> when a post of that id is stored and every
    stored post of that id has a stored publisher: the answer is 200 and
    shows the content fields and the timestamp of a stored post of that
    id, the username and picture of a stored user who is its publisher,
    the number of stored likes of that post id and the number of stored
    comments on it.  The store is untouched. *)
Theorem get_post_details_shows_post_and_counts
    (e : env) (r : request) (w : world) (pid : string) :
  (exists p, In p (posts (db w)) /\ post_id p = pid) ->
  (forall p, In p (posts (db w)) -> post_id p = pid ->
             exists u, In u (users (db w)) /\ user_id u = publisher_id p) ->
  exists p u,
    In p (posts (db w)) /\ post_id p = pid /\
    In u (users (db w)) /\ user_id u = publisher_id p /\
    fst (handle e (GET_post pid) r w) =
      mk_response
        (PDict [ ("caption", caption p);
                 ("image_url", image_url p);
                 ("music_url", music_url p);
                 ("category", category p);
                 ("datetime_posted", PDatetime (datetime_posted p));
                 ("publisher",
                   PDict [ ("username", username u);
                           ("profile_picture", profile_picture u) ]);
                 ("likes_count",
                   PInt (Z.of_nat (length
                     (filter (fun l => String.eqb (like_post_id l) pid)
                             (likes (db w))))));
                 ("comments_count",
                   PInt (Z.of_nat (length
                     (filter (fun c => String.eqb (comment_post_id c) pid)
                             (comments (db w)))))) ])
        200 /\
    db (snd (handle e (GET_post pid) r w)) = db w.
Proof.
  intros (p0 & Hin0 & Hp0) Hpublishers.
  destruct (find_post_some _ _ _ Hin0 Hp0) as [p Hp].
  pose proof (find_some _ _ Hp) as [Hin Hid]. apply String.eqb_eq in Hid.
  destruct (Hpublishers p Hin Hid) as (u0 & Hu0 & Hu0id).
  destruct (find (fun v => pyval_eqb (PStr (user_id v)) (PStr (publisher_id p)))
                 (users (db w))) as [u|] eqn:Eu.
  - pose proof (find_some _ _ Eu) as [Huin Hu]. simpl in Hu.
    apply String.eqb_eq in Hu.
    exists p, u.
    split; [exact Hin|]. split; [exact Hid|]. split; [exact Huin|].
    split; [exact Hu|].
    unfold handle, view_of, serve, get_post_details. run.
    rewrite Hp. simpl. rewrite Eu. simpl. split; reflexivity.
  - apply (find_none _ _ Eu) in Hu0. simpl in Hu0.
    rewrite Hu0id, String.eqb_refl in Hu0. discriminate.
Qed.

Lemma get_post_details_shows_post_and_counts_witness :
  exists p u,
    In p (posts example_store) /\ post_id p = "p1" /\
    In u (users example_store) /\ user_id u = publisher_id p /\
    py_get (body (fst (handle example_env (GET_post "p1") anonymous example_world)))
           "caption" = Ok (caption p).
Proof.
  destruct (get_post_details_shows_post_and_counts example_env anonymous
              example_world "p1")
    as (p & u & Hin & Hid & Huin & Hu & Hresp & _).
  - exists post_bob_old. split; [now left|reflexivity].
  - intros p [<-|[<-|[<-|[]]]]; try discriminate.
    intros _. exists bob. split; [right; now left|reflexivity].
  - exists p, u. repeat (split; [assumption|]). now rewrite Hresp.
Defined.

(** ** POST /follow, further cases *)

(** X9.  POST /follow by an authenticated user with a JSON object that
    has no [follow_user_id]: the answer is 400 "Missing fields:
    follow_user_id" and no collection is touched. *)
Theorem follow_user_missing_field
    (e : env) (r : request) (w : world) (uid : string) (d : list (string * pyval)) :
  identity r = Some uid ->
  json r = PDict d ->
  dict_lookup "follow_user_id" d = None ->
  handle e POST_follow r w
    = (mk_response (error "Missing fields: follow_user_id") 400, w).
Proof.
  intros Hid Hjson Hd. unfold handle, view_of, jwt_required. rewrite Hid, Hjson.
  unfold follow_user, validate_request, missing_fields, py_contains.
  now rewrite Hd.
Qed.

Lemma follow_user_missing_field_witness :
  handle example_env POST_follow (as_user "alice" (PDict [("user", PStr "bob")]))
         fresh_world
    = (mk_response (error "Missing fields: follow_user_id") 400, fresh_world).
Proof.
  apply (follow_user_missing_field example_env _ fresh_world "alice"
           [("user", PStr "bob")]); reflexivity.
Defined.

Lemma follow_user_run
    (e : env) (uid : string) (d : list (string * pyval)) (v : pyval) (w : world) :
  dict_lookup "follow_user_id" d = Some v ->
  follow_user e uid (PDict d) w =
  match find (fun u => pyval_eqb (PStr (user_id u)) v) (users (db w)) with
  | None =>
      (Ok (mk_response (error "User to follow does not exist") 404),
       mk_world (db w) ((Users, FindOne) :: trace w))
  | Some _ =>
      match find (is_edge uid v) (follows (db w)) with
      | Some _ =>
          (Ok (mk_response (message "Already following") 200),
           mk_world (db w) ((Follows, FindOne) :: (Users, FindOne) :: trace w))
      | None =>
          (Raise AttributeError,
           mk_world (db w) ((Follows, FindOne) :: (Users, FindOne) :: trace w))
      end
  end.
Proof.
  intro Hd. unfold follow_user, validate_request, missing_fields, py_contains, py_get.
  rewrite Hd. run.
  destruct (find _ (users (db w))); [|reflexivity].
  simpl. now destruct (find _ (follows (db w))).
Qed.



(** X11.  POST /follow by an authenticated user naming a stored user to
    whom the store already holds an edge from the caller: the answer is
    200 "Already following" and the store is untouched.  Nothing sets the
    caller apart from the target: the same holds when they are one user. *)
Theorem follow_user_already_following
    (e : env) (r : request) (w : world) (uid target : string)
    (d : list (string * pyval)) :
  identity r = Some uid ->
  json r = PDict d ->
  dict_lookup "follow_user_id" d = Some (PStr target) ->
  (exists u, In u (users (db w)) /\ user_id u = target) ->
  follows_user (db w) uid target ->
  handle e POST_follow r w =
    (mk_response (message "Already following") 200,
     mk_world (db w) ((Follows, FindOne) :: (Users, FindOne) :: trace w)).
Proof.
  intros Hid Hjson Hd (u & Hu & Huid) (f & Hf & Hf1 & Hf2).
  unfold handle, view_of, jwt_required. rewrite Hid, Hjson.
  apply serve_ok. rewrite (follow_user_run _ _ _ _ _ Hd).
  destruct (find _ (users (db w))) as [u'|] eqn:Eu.
  - destruct (find (is_edge uid (PStr target)) (follows (db w))) as [f'|] eqn:Ef;
      [reflexivity|].
    apply (find_none _ _ Ef) in Hf. unfold is_edge in Hf.
    rewrite Hf1, Hf2, String.eqb_refl in Hf. simpl in Hf.
    rewrite String.eqb_refl in Hf. discriminate.
  - apply (find_none _ _ Eu) in Hu. simpl in Hu.
    rewrite Huid, String.eqb_refl in Hu. discriminate.
Qed.

Lemma follow_user_already_following_witness :
  handle example_env POST_follow
         (as_user "alice" (PDict [("follow_user_id", PStr "bob")])) example_world =
    (mk_response (message "Already following") 200,
     mk_world example_store [(Follows, FindOne); (Users, FindOne)]).
Proof.
  apply (follow_user_already_following example_env
           (as_user "alice" (PDict [("follow_user_id", PStr "bob")]))
           example_world "alice" "bob" [("follow_user_id", PStr "bob")]);
    try reflexivity.
  - exists bob. split; [right; now left|reflexivity].
  - exists (mk_follow "alice" (PStr "bob") 5).
    split; [now left|]. split; reflexivity.
Defined.

(** ** POST /post/<post_id>/like, further cases *)

Lemma like_post_run (e : env) (uid pid : string) (w : world) :
  like_post e uid pid w =
  match find (fun p => String.eqb (post_id p) pid) (posts (db w)) with
  | None =>
      (Ok (mk_response (error "Post not found") 404),
       mk_world (db w) ((Posts, FindOne) :: trace w))
  | Some _ =>
      match find (is_like pid uid) (likes (db w)) with
      | Some _ =>
          (Ok (mk_response (message "Post already liked") 200),
           mk_world (db w) ((Likes, FindOne) :: (Posts, FindOne) :: trace w))
      | None =>
          (Raise AttributeError,
           mk_world (db w) ((Likes, FindOne) :: (Posts, FindOne) :: trace w))
      end
  end.
Proof.
  unfold like_post. run.
  destruct (find _ (posts (db w))); [|reflexivity].
  simpl. now destruct (find _ (likes (db w))).
Qed.

(** X12.  POST /post/<post_id>/like by an authenticated user for an id no
    stored post has: the answer is 404 "Post not found", the store is
    untouched and the likes collection has not been read. *)
Theorem like_post_unknown_post (e : env) (r : request) (w : world) (uid pid : string) :
  identity r = Some uid ->
  (forall p, In p (posts (db w)) -> post_id p <> pid) ->
  handle e (POST_post_like pid) r w =
    (mk_response (error "Post not found") 404,
     mk_world (db w) ((Posts, FindOne) :: trace w)).
Proof.
  intros Hid Hnone. apply find_post_none in Hnone.
  unfold handle, view_of, jwt_required. rewrite Hid.
  apply serve_ok. rewrite like_post_run. now rewrite Hnone.
Qed.

Lemma like_post_unknown_post_witness :
  handle example_env (POST_post_like "p9") (as_user "alice" PNone) example_world =
    (mk_response (error "Post not found") 404,
     mk_world example_store [(Posts, FindOne)]).
Proof.
  apply (like_post_unknown_post example_env (as_user "alice" PNone)
           example_world "alice" "p9" eq_refl).
  intros p [<-|[<-|[<-|[]]]]; discriminate.
Defined.

(** X13.  POST /post/<post_id>/like by an authenticated user who has a
    stored like on that stored post: the answer is 200 "Post already
    liked" and the store is untouched, so the number of likes stays what
    it was. *)
Theorem like_post_already_liked (e : env) (r : request) (w : world) (uid pid : string) :
  identity r = Some uid ->
  (exists p, In p (posts (db w)) /\ post_id p = pid) ->
  (exists l, In l (likes (db w)) /\ like_post_id l = pid /\ like_user_id l = uid) ->
  handle e (POST_post_like pid) r w =
    (mk_response (message "Post already liked") 200,
     mk_world (db w) ((Likes, FindOne) :: (Posts, FindOne) :: trace w)).
Proof.
  intros Hid (p & Hin & Hp) (l & Hl & Hlp & Hlu).
  unfold handle, view_of, jwt_required. rewrite Hid.
  apply serve_ok. rewrite like_post_run.
  destruct (find_post_some _ _ _ Hin Hp) as [p' ->].
  now destruct (find_like_some _ _ _ _ Hl Hlp Hlu) as [l' ->].
Qed.

Lemma like_post_already_liked_witness :
  handle example_env (POST_post_like "p1") (as_user "bob" PNone) example_world =
    (mk_response (message "Post already liked") 200,
     mk_world example_store [(Likes, FindOne); (Posts, FindOne)]).
Proof.
  apply (like_post_already_liked example_env (as_user "bob" PNone)
           example_world "bob" "p1" eq_refl).
  - exists post_bob_old. split; [now left|reflexivity].
  - exists (mk_like "p1" "bob" 6). split; [now left|]. split; reflexivity.
Defined.

(** ** POST /post/<post_id>/comment, further cases *)

Lemma add_comment_run
    (e : env) (uid pid : string) (d : list (string * pyval)) (text : pyval) (w : world) :
  dict_lookup "comment" d = Some text ->
  add_comment e uid pid (PDict d) w =
  match find (fun p => String.eqb (post_id p) pid) (posts (db w)) with
  | None =>
      (Ok (mk_response (error "Post not found") 404),
       mk_world (db w) ((Posts, FindOne) :: trace w))
  | Some _ =>
      (Raise AttributeError, mk_world (db w) ((Posts, FindOne) :: trace w))
  end.
Proof.
  intro Hd. unfold add_comment, validate_request, missing_fields, py_contains.
  rewrite Hd. run.
  destruct (find _ (posts (db w))); [|reflexivity].
  simpl. now rewrite Hd.
Qed.

(** X14.  POST /post/<post_id>/comment by an authenticated user with a
    JSON object that has a [comment], for an id no stored post has: the
    answer is 404 "Post not found" and the store is untouched. *)
Theorem add_comment_unknown_post
    (e : env) (r : request) (w : world) (uid pid : string)
    (d : list (string * pyval)) (text : pyval) :
  identity r = Some uid ->
  json r = PDict d ->
  dict_lookup "comment" d = Some text ->
  (forall p, In p (posts (db w)) -> post_id p <> pid) ->
  handle e (POST_post_comment pid) r w =
    (mk_response (error "Post not found") 404,
     mk_world (db w) ((Posts, FindOne) :: trace w)).
Proof.
  intros Hid Hjson Hd Hnone. apply find_post_none in Hnone.
  unfold handle, view_of, jwt_required. rewrite Hid, Hjson.
  apply serve_ok. rewrite (add_comment_run _ _ _ _ _ _ Hd). now rewrite Hnone.
Qed.

Lemma add_comment_unknown_post_witness :
  handle example_env (POST_post_comment "p9")
         (as_user "alice" (PDict [("comment", PStr "nice")])) example_world =
    (mk_response (error "Post not found") 404,
     mk_world example_store [(Posts, FindOne)]).
Proof.
  apply (add_comment_unknown_post example_env
           (as_user "alice" (PDict [("comment", PStr "nice")]))
           example_world "alice" "p9" [("comment", PStr "nice")] (PStr "nice"));
    try reflexivity.
  intros p [<-|[<-|[<-|[]]]]; discriminate.
Defined.

(** X15.  POST /post/<post_id>/comment by an authenticated user with a
    JSON object that has a [comment], on a stored post: the view raises
    [AttributeError] when it reads the clock at line 274, the client gets
    the answer of the 500 handler, and no comment is stored. *)
Theorem add_comment_on_stored_post_fails
    (e : env) (r : request) (w : world) (uid pid : string)
    (d : list (string * pyval)) (text : pyval) :
  identity r = Some uid ->
  json r = PDict d ->
  dict_lookup "comment" d = Some text ->
  (exists p, In p (posts (db w)) /\ post_id p = pid) ->
  add_comment e uid pid (json r) w =
    (Raise AttributeError, mk_world (db w) ((Posts, FindOne) :: trace w)) /\
  handle e (POST_post_comment pid) r w =
    (internal_error, mk_world (db w) ((Posts, FindOne) :: trace w)).
Proof.
  intros Hid Hjson Hd (p & Hin & Hp).
  assert (Hrun : add_comment e uid pid (PDict d) w =
                 (Raise AttributeError, mk_world (db w) ((Posts, FindOne) :: trace w))).
  { rewrite (add_comment_run _ _ _ _ _ _ Hd).
    now destruct (find_post_some _ _ _ Hin Hp) as [p' ->]. }
  rewrite Hjson. split; [exact Hrun|].
  unfold handle, view_of, jwt_required. rewrite Hid, Hjson.
  now apply (serve_raise_at _ _ _ AttributeError).
Qed.

Lemma add_comment_on_stored_post_fails_witness :
  handle example_env (POST_post_comment "p1")
         (as_user "alice" (PDict [("comment", PStr "nice")])) example_world =
    (internal_error, mk_world example_store [(Posts, FindOne)]).
Proof.
  apply (add_comment_on_stored_post_fails example_env
           (as_user "alice" (PDict [("comment", PStr "nice")]))
           example_world "alice" "p1" [("comment", PStr "nice")] (PStr "nice"));
    try reflexivity.
  exists post_bob_old. split; [now left|reflexivity].
Defined.

(** ** DELETE /post/<post_id>/like, further properties *)

Lemma find_first_match {A} (f : A -> bool) (before after : list A) (x : A) :
  (forall y, In y before -> f y = false) -> f x = true ->
  find f (before ++ x :: after) = Some x /\
  remove_first f (before ++ x :: after) = (before ++ after)%list.
Proof.
  intros Hb Hx. induction before as [|y before IH]; simpl.
  - now rewrite Hx.
  - rewrite (Hb y (or_introl eq_refl)).
    destruct IH as [IH1 IH2]; [intros z Hz; apply Hb; now right|].
    now rewrite IH1, IH2.
Qed.

Lemma find_no_match {A} (f : A -> bool) (l : list A) :
  (forall y, In y l -> f y = false) -> find f l = None.
Proof.
  intro H. destruct (find f l) as [x|] eqn:E; [|reflexivity].
  apply find_some in E as [Hin Hx]. rewrite (H x Hin) in Hx. discriminate.
Qed.

Lemma is_like_false (pid uid : string) (l : like) :
  ~ (like_post_id l = pid /\ like_user_id l = uid) -> is_like pid uid l = false.
Proof.
  intro H. destruct (is_like pid uid l) eqn:E; [|reflexivity].
  apply is_like_spec in E. contradiction.
Qed.

(** X16.  Unliking twice.  When the caller has exactly one stored like on
    a stored post, the first DELETE /post/<post_id>/like answers "Post
    unliked successfully" and takes that like out; the second answers
    "Post not liked yet" and leaves the store as the first left it. *)
Theorem unlike_twice
    (e e' : env) (r : request) (w : world) (uid pid : string)
    (before after : list like) (l : like) :
  identity r = Some uid ->
  (exists p, In p (posts (db w)) /\ post_id p = pid) ->
  likes (db w) = (before ++ l :: after)%list ->
  like_post_id l = pid -> like_user_id l = uid ->
  (forall x, In x (before ++ after) ->
             ~ (like_post_id x = pid /\ like_user_id x = uid)) ->
  fst (handle e (DELETE_post_like pid) r w)
    = mk_response (message "Post unliked successfully") 200 /\
  likes (db (snd (handle e (DELETE_post_like pid) r w))) = (before ++ after)%list /\
  fst (handle e' (DELETE_post_like pid) r (snd (handle e (DELETE_post_like pid) r w)))
    = mk_response (message "Post not liked yet") 200 /\
  db (snd (handle e' (DELETE_post_like pid) r (snd (handle e (DELETE_post_like pid) r w))))
    = db (snd (handle e (DELETE_post_like pid) r w)).
Proof.
  intros Hid (p & Hin & Hp) Hlikes Hlp Hlu Hothers.
  destruct (find_post_some _ _ _ Hin Hp) as [p' Hfind].
  assert (Hl : is_like pid uid l = true) by (apply is_like_spec; now split).
  assert (Hb : forall y, In y before -> is_like pid uid y = false).
  { intros y Hy. apply is_like_false, Hothers, in_or_app. now left. }
  destruct (find_first_match _ before after l Hb Hl) as [Hf Hr].
  assert (Hrest : find (is_like pid uid) (before ++ after) = None).
  { apply find_no_match. intros y Hy. now apply is_like_false, Hothers. }
  assert (Hfirst : handle e (DELETE_post_like pid) r w =
            (mk_response (message "Post unliked successfully") 200,
             mk_world
               (mk_store (users (db w)) (posts (db w)) (follows (db w))
                         (before ++ after) (comments (db w)))
               ((Likes, DeleteOne) :: (Likes, FindOne) :: (Posts, FindOne) :: trace w))).
  { unfold handle, view_of, jwt_required. rewrite Hid. apply serve_ok.
    rewrite unlike_post_run, Hfind, Hlikes, Hf, Hr. reflexivity. }
  rewrite Hfirst. simpl fst. simpl snd.
  split; [reflexivity|]. split; [reflexivity|].
  unfold handle, view_of, jwt_required. rewrite Hid.
  unfold serve. rewrite unlike_post_run. simpl. rewrite Hfind, Hrest.
  split; reflexivity.
Qed.

Lemma unlike_twice_witness :
  fst (handle later_env (DELETE_post_like "p1") (as_user "bob" PNone)
         (snd (handle example_env (DELETE_post_like "p1") (as_user "bob" PNone)
                 example_world)))
    = mk_response (message "Post not liked yet") 200.
Proof.
  apply (unlike_twice example_env later_env (as_user "bob" PNone) example_world
           "bob" "p1" [] [] (mk_like "p1" "bob" 6)); try reflexivity.
  - exists post_bob_old. split; [now left|reflexivity].
  - intros x [].
Defined.

Lemma unlike_post_removes
    (e : env) (r : request) (w : world) (uid pid : string) :
  identity r = Some uid ->
  (exists p, In p (posts (db w)) /\ post_id p = pid) ->
  (exists l, In l (likes (db w)) /\ like_post_id l = pid /\ like_user_id l = uid) ->
  exists before l after,
    likes (db w) = (before ++ l :: after)%list /\
    like_post_id l = pid /\ like_user_id l = uid /\
    db (snd (handle e (DELETE_post_like pid) r w)) =
      mk_store (users (db w)) (posts (db w)) (follows (db w))
               (before ++ after) (comments (db w)).
Proof.
  intros Hid (p & Hin & Hp) (l & Hl & Hlp & Hlu).
  destruct (find_post_some _ _ _ Hin Hp) as [p' Hfind].
  destruct (find_like_some _ _ _ _ Hl Hlp Hlu) as [l' Hlike].
  destruct (remove_first_split _ _ _ Hlike) as (before & after & Heq & _ & Hr).
  pose proof (find_some _ _ Hlike) as [_ Hl'].
  apply is_like_spec in Hl' as [Hp' Hu'].
  exists before, l', after.
  split; [exact Heq|]. split; [exact Hp'|]. split; [exact Hu'|].
  unfold handle, view_of, jwt_required. rewrite Hid.
  unfold serve. rewrite unlike_post_run, Hfind, Hlike. simpl. now rewrite Hr.
Qed.

(** X17.  A successful unlike lowers the number of stored likes of that
    post by exactly one and leaves the number of likes of every other post
    as it was. *)
Theorem unlike_lowers_count_by_one
    (e : env) (r : request) (w : world) (uid pid : string) :
  identity r = Some uid ->
  (exists p, In p (posts (db w)) /\ post_id p = pid) ->
  (exists l, In l (likes (db w)) /\ like_post_id l = pid /\ like_user_id l = uid) ->
  count_likes pid (db (snd (handle e (DELETE_post_like pid) r w)))
    = count_likes pid (db w) - 1 /\
  (forall other, other <> pid ->
     count_likes other (db (snd (handle e (DELETE_post_like pid) r w)))
       = count_likes other (db w)).
Proof.
  intros Hid Hpost Hlike.
  destruct (unlike_post_removes e r w uid pid Hid Hpost Hlike)
    as (before & l & after & Heq & Hlp & _ & Hdb).
  rewrite Hdb. unfold count_likes. simpl. rewrite Heq. split.
  - rewrite !filter_app. simpl.
    rewrite Hlp, String.eqb_refl. simpl. rewrite !length_app. simpl. lia.
  - intros other Hother. rewrite !filter_app. simpl.
    assert (E : String.eqb (like_post_id l) other = false).
    { apply String.eqb_neq. congruence. }
    now rewrite E.
Qed.

Lemma unlike_lowers_count_by_one_witness :
  count_likes "p1"
    (db (snd (handle example_env (DELETE_post_like "p1") (as_user "bob" PNone)
                example_world)))
    = count_likes "p1" example_store - 1.
Proof.
  apply (unlike_lowers_count_by_one example_env (as_user "bob" PNone)
           example_world "bob" "p1" eq_refl).
  - exists post_bob_old. split; [now left|reflexivity].
  - exists (mk_like "p1" "bob" 6). split; [now left|]. split; reflexivity.
Defined.

(** X18.  A successful unlike touches no like of another user or of
    another post: such a like is stored afterwards exactly when it was
    stored before, and the users, posts, follows and comments collections
    are as they were. *)
Theorem unlike_keeps_other_likes
    (e : env) (r : request) (w : world) (uid pid : string) :
  identity r = Some uid ->
  (exists p, In p (posts (db w)) /\ post_id p = pid) ->
  (exists l, In l (likes (db w)) /\ like_post_id l = pid /\ like_user_id l = uid) ->
  (forall x, ~ (like_post_id x = pid /\ like_user_id x = uid) ->
     (In x (likes (db (snd (handle e (DELETE_post_like pid) r w))))
      <-> In x (likes (db w)))) /\
  users (db (snd (handle e (DELETE_post_like pid) r w))) = users (db w) /\
  posts (db (snd (handle e (DELETE_post_like pid) r w))) = posts (db w) /\
  follows (db (snd (handle e (DELETE_post_like pid) r w))) = follows (db w) /\
  comments (db (snd (handle e (DELETE_post_like pid) r w))) = comments (db w).
Proof.
  intros Hid Hpost Hlike.
  destruct (unlike_post_removes e r w uid pid Hid Hpost Hlike)
    as (before & l & after & Heq & Hlp & Hlu & Hdb).
  rewrite Hdb. simpl. split; [|repeat split].
  intros x Hx. rewrite Heq, !in_app_iff. simpl. split.
  - intros [H|H]; [now left|right; now right].
  - intros [H|[H|H]]; [now left| |now right].
    subst x. exfalso. apply Hx. now split.
Qed.

Lemma unlike_keeps_other_likes_witness :
  posts (db (snd (handle example_env (DELETE_post_like "p1") (as_user "bob" PNone)
                    example_world)))
    = posts example_store.
Proof.
  apply (unlike_keeps_other_likes example_env (as_user "bob" PNone)
           example_world "bob" "p1" eq_refl).
  - exists post_bob_old. split; [now left|reflexivity].
  - exists (mk_like "p1" "bob" 6). split; [now left|]. split; reflexivity.
Defined.

Lemma unlike_lowers_count_step
    (e : env) (r : request) (w : world) (uid pid : string) :
  identity r = Some uid ->
  (exists p, In p (posts (db w)) /\ post_id p = pid) ->
  (exists l, In l (likes (db w)) /\ like_post_id l = pid /\ like_user_id l = uid) ->
  count_likes pid (db (snd (handle e (DELETE_post_like pid) r w)))
    = count_likes pid (db w) - 1 /\
  users (db (snd (handle e (DELETE_post_like pid) r w))) = users (db w) /\
  posts (db (snd (handle e (DELETE_post_like pid) r w))) = posts (db w).
Proof.
  intros Hid Hpost Hlike.
  destruct (unlike_post_removes e r w uid pid Hid Hpost Hlike)
    as (before & l & after & Heq & Hlp & _ & Hdb).
  rewrite Hdb. unfold count_likes. simpl. rewrite Heq. split; [|split; reflexivity].
  rewrite !filter_app. simpl.
  rewrite Hlp, String.eqb_refl. simpl. rewrite !length_app. simpl. lia.
Qed.

Lemma get_post_details_likes_count (e : env) (r : request) (w : world) (pid : string) :
  (exists p, In p (posts (db w)) /\ post_id p = pid) ->
  (forall p, In p (posts (db w)) -> post_id p = pid ->
             exists u, In u (users (db w)) /\ user_id u = publisher_id p) ->
  status (fst (handle e (GET_post pid) r w)) = 200 /\
  py_get (body (fst (handle e (GET_post pid) r w))) "likes_count"
    = Ok (PInt (count_likes pid (db w))).
Proof.
  intros (p0 & Hin0 & Hp0) Hpublishers.
  destruct (find_post_some _ _ _ Hin0 Hp0) as [p Hp].
  pose proof (find_some _ _ Hp) as [Hin Hid]. apply String.eqb_eq in Hid.
  destruct (Hpublishers p Hin Hid) as (u0 & Hu0 & Hu0id).
  destruct (find (fun v => pyval_eqb (PStr (user_id v)) (PStr (publisher_id p)))
                 (users (db w))) as [u|] eqn:Eu.
  - unfold handle, view_of, serve, get_post_details. run.
    rewrite Hp. simpl. rewrite Eu. simpl. split; reflexivity.
  - apply (find_none _ _ Eu) in Hu0. simpl in Hu0.
    rewrite Hu0id, String.eqb_refl in Hu0. discriminate.
Qed.

(** X19.  Unlike, then look.  On a stored post whose publishers are
    stored users, GET /post/<post_id> after a successful unlike answers 200
    with a [likes_count] one below the [likes_count] it answered before. *)
Theorem unlike_then_details_shows_one_like_less
    (e e' : env) (r r' : request) (w : world) (uid pid : string) :
  identity r = Some uid ->
  (exists p, In p (posts (db w)) /\ post_id p = pid) ->
  (forall p, In p (posts (db w)) -> post_id p = pid ->
             exists u, In u (users (db w)) /\ user_id u = publisher_id p) ->
  (exists l, In l (likes (db w)) /\ like_post_id l = pid /\ like_user_id l = uid) ->
  exists n,
    py_get (body (fst (handle e' (GET_post pid) r' w))) "likes_count" = Ok (PInt n) /\
    status (fst (handle e' (GET_post pid) r'
                   (snd (handle e (DELETE_post_like pid) r w)))) = 200 /\
    py_get (body (fst (handle e' (GET_post pid) r'
                         (snd (handle e (DELETE_post_like pid) r w)))))
           "likes_count" = Ok (PInt (n - 1)).
Proof.
  intros Hid Hpost Hpublishers Hlike.
  exists (count_likes pid (db w)).
  destruct (get_post_details_likes_count e' r' w pid Hpost Hpublishers) as [_ Hbefore].
  split; [exact Hbefore|].
  destruct (unlike_lowers_count_step e r w uid pid Hid Hpost Hlike) as (Hcount & Hu & Hp).
  rewrite <- Hcount.
  apply get_post_details_likes_count; rewrite ?Hp, ?Hu; assumption.
Qed.

Lemma unlike_then_details_shows_one_like_less_witness :
  exists n,
    py_get (body (fst (handle later_env (GET_post "p1") anonymous example_world)))
           "likes_count" = Ok (PInt n) /\
    py_get (body (fst (handle later_env (GET_post "p1") anonymous
                         (snd (handle example_env (DELETE_post_like "p1")
                                 (as_user "bob" PNone) example_world)))))
           "likes_count" = Ok (PInt (n - 1)).
Proof.
  destruct (unlike_then_details_shows_one_like_less example_env later_env
              (as_user "bob" PNone) anonymous example_world "bob" "p1" eq_refl)
    as (n & Hbefore & _ & Hafter).
  - exists post_bob_old. split; [now left|reflexivity].
  - intros p [<-|[<-|[<-|[]]]]; try discriminate.
    intros _. exists bob. split; [right; now left|reflexivity].
  - exists (mk_like "p1" "bob" 6). split; [now left|]. split; reflexivity.
  - exists n. split; assumption.
Defined.

(** ** What no request does *)













(** ** POST /post, either required field *)

(** X24.  POST /post by an authenticated user with a JSON object that
    lacks [caption] or [image_url]: the answer is 400, its error text is
    "Missing fields: " followed by a listing that contains the name of
    the missing field, and no collection is touched. *)
Theorem create_post_names_missing_field
    (e : env) (r : request) (w : world) (uid : string)
    (d : list (string * pyval)) (f : string) :
  identity r = Some uid ->
  json r = PDict d ->
  f = "caption" \/ f = "image_url" ->
  dict_lookup f d = None ->
  exists listing,
    handle e POST_post r w
      = (mk_response (error ("Missing fields: " ++ listing)) 400, w) /\
    names_field f listing.
Proof.
  intros Hid Hjson Hf Hd.
  unfold handle, view_of, jwt_required. rewrite Hid, Hjson.
  unfold create_post, validate_request, missing_fields, py_contains.
  destruct Hf as [-> | ->]; rewrite Hd.
  - destruct (dict_lookup "image_url" d).
    + exists "caption". split; [reflexivity|]. now exists "", "".
    + exists "caption, image_url". split; [reflexivity|].
      now exists "", ", image_url".
  - destruct (dict_lookup "caption" d).
    + exists "image_url". split; [reflexivity|]. now exists "", "".
    + exists "caption, image_url". split; [reflexivity|].
      now exists "caption, ", "".
Qed.

Lemma create_post_names_missing_field_witness :
  exists listing,
    handle example_env POST_post
      (as_user "alice" (PDict [("caption", PStr "hello")])) fresh_world
      = (mk_response (error ("Missing fields: " ++ listing)) 400, fresh_world) /\
    names_field "image_url" listing.
Proof.
  apply (create_post_names_missing_field example_env
           (as_user "alice" (PDict [("caption", PStr "hello")]))
           fresh_world "alice" [("caption", PStr "hello")] "image_url").
  - reflexivity.
  - reflexivity.
  - now right.
  - reflexivity.
Defined.
